(** * Action-plan dashboard (app.py): normaliser and filter/summary engine

    A shallow embedding of [src/app.py].  The script is glue over pandas, so
    the embedding models the pandas operations the script calls, at the
    granularity the script observes them:

    - a Python [str] is a list of Unicode code points ([pystr]);
    - a spreadsheet cell is a [cell] (missing, text, integer, timestamp);
    - a [DataFrame] is a list of column labels and a list of rows; pandas
      allows repeated column labels, and so does the model;
    - code that can raise returns a [result]; the [try]/[except] of
      [load_data] is written out.

    What the script takes from outside (the workbook reader, Unicode case
    tables, the date parser, the regular-expression engine, date formatting)
    is gathered in the class [Externals]. *)

From Stdlib Require Import List NArith ZArith Bool Lia String Ascii.
From Stdlib Require Import Sorting.Sorted Sorting.Permutation.
From Stdlib Require DecimalString.
Import ListNotations.

Local Open Scope N_scope.

(** ** Python strings *)

Definition pystr := list N.

(** A literal with ASCII characters only. *)
Definition u (s : string) : pystr := map N_of_ascii (list_ascii_of_string s).

Definition pystr_eqb (a b : pystr) : bool :=
  if list_eq_dec N.eq_dec a b then true else false.

Definition underscore : N := 95.

Definition is_underscore (c : N) : bool := c =? underscore.
Definition is_ascii (c : N) : bool := c <? 128.
Definition is_upper_az (c : N) : bool := (65 <=? c) && (c <=? 90).
Definition is_lower_az (c : N) : bool := (97 <=? c) && (c <=? 122).
Definition is_digit (c : N) : bool := (48 <=? c) && (c <=? 57).

(** The character class [[a-z0-9]] of the first [str.replace]. *)
Definition is_az09 (c : N) : bool := is_lower_az c || is_digit c.

Definition ascii_lower (c : N) : N := if is_upper_az c then c + 32 else c.

(** ** Values, frames and exceptions *)

(** Nanoseconds since the epoch, as pandas keeps a [Timestamp]. *)
Definition timestamp := Z.

Inductive cell :=
| CNull                      (* NaN / NaT / empty cell *)
| CText (s : pystr)
| CNum (n : Z)
| CDate (t : timestamp).

Definition cell_eq_dec (a b : cell) : {a = b} + {a <> b}.
Proof.
  decide equality; first [apply Z.eq_dec | apply (list_eq_dec N.eq_dec)].
Defined.

Definition cell_eqb (a b : cell) : bool := if cell_eq_dec a b then true else false.

Definition notna (c : cell) : bool :=
  match c with CNull => false | _ => true end.

Definition row := list cell.

Record DataFrame := mkDF { columns : list pystr; rows : list row }.

(** [pd.DataFrame()] *)
Definition empty_frame : DataFrame := mkDF [] [].

(** [df.empty]: some axis has length 0. *)
Definition df_empty (df : DataFrame) : bool :=
  match columns df, rows df with
  | [], _ | _, [] => true
  | _, _ => false
  end.

Inductive exn :=
| KeyError (k : pystr)
| ValueError (msg : pystr)
| AttributeError (msg : pystr)
| OtherError (msg : pystr).

Definition exn_text (e : exn) : pystr :=
  match e with
  | KeyError k => u "'" ++ k ++ u "'"
  | ValueError m | AttributeError m | OtherError m => m
  end.

Inductive result (A : Type) :=
| Ok (a : A)
| Raise (e : exn).
Arguments Ok {A} a.
Arguments Raise {A} e.

Definition bind {A B} (r : result A) (k : A -> result B) : result B :=
  match r with
  | Ok a => k a
  | Raise e => Raise e
  end.

Notation "x <- r ;; k" := (bind r (fun x => k))
  (at level 61, r at next level, right associativity).

(** ** What the script takes from its libraries *)

Class Externals := {
  (** the uploaded file *)
  payload : Type;
  (** [pd.read_excel(file, engine='openpyxl')] *)
  read_excel : payload -> result DataFrame;
  (** [str.lower] on a string that has a non-ASCII character *)
  unicode_lower : pystr -> pystr;
  (** the date parser behind [pd.to_datetime(..., errors='coerce')], on text *)
  parse_datetime : pystr -> option timestamp;
  (** the same conversion on a numeric cell *)
  number_to_datetime : Z -> option timestamp;
  (** [re.search(pat, s, re.IGNORECASE)] as [Series.str.contains] calls it;
      a malformed pattern raises *)
  re_search_ignorecase : pystr -> pystr -> result bool;
  (** [str(Timestamp)] *)
  str_of_timestamp : timestamp -> pystr;
  (** [Timestamp.strftime('%d/%m/%Y')] *)
  strftime_dmy : timestamp -> pystr
}.

(** * Normaliser *)

Section Program.
Context {E : Externals}.

(** [str.lower]: on ASCII text only [A-Z] change. *)
Definition str_lower (s : pystr) : pystr :=
  if forallb is_ascii s then map ascii_lower s else unicode_lower s.

(** [.str.replace('[^a-z0-9]', '_', regex=True)] *)
Definition replace_non_az09 (s : pystr) : pystr :=
  map (fun c => if is_az09 c then c else underscore) s.

(** [.str.replace(r'_{2,}', '_', regex=True)]: an underscore followed by
    another one is dropped, so a run of two or more leaves one. *)
Fixpoint collapse_underscores (s : pystr) : pystr :=
  match s with
  | c :: ((d :: _) as t) =>
      if is_underscore c && is_underscore d
      then collapse_underscores t
      else c :: collapse_underscores t
  | _ => s
  end.

(** [lstrip('_')] and [rstrip('_')] *)
Fixpoint lstrip_underscores (s : pystr) : pystr :=
  match s with
  | c :: t => if is_underscore c then lstrip_underscores t else s
  | [] => []
  end.

Fixpoint rstrip_underscores (s : pystr) : pystr :=
  match s with
  | [] => []
  | c :: t =>
      match rstrip_underscores t with
      | [] => if is_underscore c then [] else [c]
      | r => c :: r
      end
  end.

(** [.str.strip('_')] *)
Definition strip_underscores (s : pystr) : pystr :=
  rstrip_underscores (lstrip_underscores s).

(** Lines 20-24 of [load_data], on one column label. *)
Definition normalize_label (s : pystr) : pystr :=
  strip_underscores (collapse_underscores (replace_non_az09 (str_lower s))).


(** *** Column access *)

Definition has_column (name : pystr) (df : DataFrame) : bool :=
  existsb (pystr_eqb name) (columns df).

(** Positions of the columns labelled [name], counted from [i]. *)
Fixpoint positions (name : pystr) (cols : list pystr) (i : nat) : list nat :=
  match cols with
  | [] => []
  | c :: t =>
      if pystr_eqb c name then i :: positions name t (S i)
      else positions name t (S i)
  end.

Definition column_at (i : nat) (rs : list row) : list cell :=
  map (fun r => nth i r CNull) rs.

(** [df[name]]: a Series when one column has the label, a DataFrame when
    several have it, [KeyError] when none has. *)
Inductive selection :=
| Series (i : nat) (s : list cell)
| Frame (cols : list (list cell)).

Definition getitem (df : DataFrame) (name : pystr) : result selection :=
  match positions name (columns df) 0 with
  | [] => Raise (KeyError name)
  | [i] => Ok (Series i (column_at i (rows df)))
  | ps => Ok (Frame (map (fun i => column_at i (rows df)) ps))
  end.

(** The script applies Series methods to [df[name]] ([.unique()], [.str],
    a scalar for [st.metric], ...); on a DataFrame each of these raises. *)
Definition series_of (df : DataFrame) (name : pystr) : result (nat * list cell) :=
  sel <- getitem df name ;;
  match sel with
  | Series i s => Ok (i, s)
  | Frame _ => Raise (AttributeError (u "DataFrame where a Series is expected"))
  end.

Fixpoint set_nth (i : nat) (v : cell) (r : row) : row :=
  match r, i with
  | [], _ => []
  | _ :: t, O => v :: t
  | c :: t, S j => c :: set_nth j v t
  end.

(** [df[name] = s] for the single column at position [i]. *)
Fixpoint assign_column (i : nat) (s : list cell) (rs : list row) : list row :=
  match s, rs with
  | v :: s', r :: rs' => set_nth i v r :: assign_column i s' rs'
  | _, _ => rs
  end.

(** [df[mask]]: the rows whose mask entry is [True]. *)
Fixpoint boolean_mask (m : list bool) (rs : list row) : list row :=
  match m, rs with
  | b :: m', r :: rs' => if b then r :: boolean_mask m' rs' else boolean_mask m' rs'
  | _, _ => []
  end.

(** *** load_data *)

Definition col_data : pystr := u "data".
Definition col_dia : pystr := u "dia".
Definition col_dia_da_semana : pystr := u "dia_da_semana".
Definition col_foco_principal_do_dia : pystr := u "foco_principal_do_dia".

(** One element of [pd.to_datetime(s, errors='coerce')]: what cannot be
    converted becomes NaT. *)
Definition to_datetime_coerce (c : cell) : cell :=
  match c with
  | CNull => CNull
  | CDate t => CDate t
  | CText s => match parse_datetime s with Some t => CDate t | None => CNull end
  | CNum n => match number_to_datetime n with Some t => CDate t | None => CNull end
  end.

(** [pd.to_datetime(df['data'], errors='coerce')]; given the DataFrame that
    a repeated label selects, pandas refuses ("cannot assemble with
    duplicate keys"). *)
Definition to_datetime (sel : selection) : result (nat * list cell) :=
  match sel with
  | Series i s => Ok (i, map to_datetime_coerce s)
  | Frame _ => Raise (ValueError (u "cannot assemble with duplicate keys"))
  end.

(** [df.dropna(subset=[name])] for the column at position [i]. *)
Definition dropna_at (i : nat) (rs : list row) : list row :=
  filter (fun r => notna (nth i r CNull)) rs.

(** What the script shows with [st.error], [st.warning], [st.info]. *)
Inductive notice :=
| ErroAoCarregar (cause : pystr)       (* line 39 *)
| AvisoColunaDataAusente               (* line 35 *)
| AvisoNenhumDadoCarregado             (* line 212 *)
| InfoAguardandoUpload.                (* line 214 *)

(** Lines 20-37: the body of the [try] once the workbook is read. *)
Definition normalize_frame (raw : DataFrame) : result (DataFrame * list notice) :=
  let df := mkDF (map normalize_label (columns raw)) (rows raw) in
  if has_column col_data df then
    sel <- getitem df col_data ;;
    conv <- to_datetime sel ;;
    let '(i, s) := conv in
    let df := mkDF (columns df) (assign_column i s (rows df)) in
    Ok (mkDF (columns df) (dropna_at i (rows df)), [])
  else
    Ok (df, [AvisoColunaDataAusente]).

(** Lines 38-40: the [except] branch. *)
Definition or_empty (r : result (DataFrame * list notice)) : DataFrame * list notice :=
  match r with
  | Ok out => out
  | Raise e => (empty_frame, [ErroAoCarregar (exn_text e)])
  end.

Definition load_data (file : payload) : DataFrame * list notice :=
  or_empty (raw <- read_excel file ;; normalize_frame raw).

(** The canonical table [load_data] returns once the workbook is read as
    [raw]. *)
Definition normalize (raw : DataFrame) : DataFrame :=
  fst (or_empty (normalize_frame raw)).

(** * Filter / summary engine *)

(** What the user enters in the sidebar: the choice made in the weekday
    multiselect, given its options, and the text of the keyword box. *)
Record UI := {
  multiselect_dia_da_semana : list cell -> list cell;
  text_input_foco : pystr
}.

(** [Series.unique()]: the distinct values, in order of first appearance. *)
Fixpoint unique (s : list cell) : list cell :=
  match s with
  | [] => []
  | c :: t => c :: filter (fun d => negb (cell_eqb c d)) (unique t)
  end.

(** [Series.isin(values)] *)
Definition isin (values : list cell) (s : list cell) : list bool :=
  map (fun c => existsb (cell_eqb c) values) s.

Definition nonempty {A} (l : list A) : bool :=
  match l with [] => false | _ => true end.

(** Lines 65-78. *)
Definition filter_dia_da_semana (ui : UI) (df : DataFrame) : result DataFrame :=
  if has_column col_dia_da_semana df then
    col <- series_of df col_dia_da_semana ;;
    let all_days := unique (snd col) in
    let selected_days := multiselect_dia_da_semana ui all_days in
    if nonempty selected_days
    then Ok (mkDF (columns df) (boolean_mask (isin selected_days (snd col)) (rows df)))
    else Ok df
  else Ok df.

(** [str(x)] for a cell, as [.astype(str)] applies it: a missing value
    becomes the text [nan]. *)
Definition astype_str (c : cell) : pystr :=
  match c with
  | CNull => u "nan"
  | CText s => s
  | CNum n => u (DecimalString.NilZero.string_of_int (Z.to_int n))
  | CDate t => str_of_timestamp t
  end.

Fixpoint is_prefix (p s : pystr) : bool :=
  match p, s with
  | [], _ => true
  | _ :: _, [] => false
  | a :: p', b :: s' => (a =? b) && is_prefix p' s'
  end.

Fixpoint is_infix (p s : pystr) : bool :=
  is_prefix p s || match s with [] => false | _ :: t => is_infix p t end.

(** Characters that stand for themselves in a pattern. *)
Definition is_plain_char (c : N) : bool :=
  is_upper_az c || is_lower_az c || is_digit c || (c =? 32).

(** One element of [.str.contains(pat, case=False, na=False)]: the keyword
    is a regular expression searched with IGNORECASE.  For a pattern of
    plain ASCII characters in ASCII text that is the substring test up to
    the case of [A-Z]; everything else is left to the engine. *)
Definition contains_ignorecase (pat s : pystr) : result bool :=
  if forallb is_plain_char pat && forallb is_ascii s
  then Ok (is_infix (map ascii_lower pat) (map ascii_lower s))
  else re_search_ignorecase pat s.

Fixpoint str_contains (pat : pystr) (ss : list pystr) : result (list bool) :=
  match ss with
  | [] => Ok []
  | s :: t =>
      b <- contains_ignorecase pat s ;;
      bs <- str_contains pat t ;;
      Ok (b :: bs)
  end.

(** Lines 81-87; [df] is the loaded table, [df_filtered] the table after
    the weekday filter. *)
Definition filter_foco (ui : UI) (df df_filtered : DataFrame) : result DataFrame :=
  if has_column col_foco_principal_do_dia df then
    let search_focus := text_input_foco ui in
    if nonempty search_focus then
      col <- series_of df_filtered col_foco_principal_do_dia ;;
      m <- str_contains search_focus (map astype_str (snd col)) ;;
      Ok (mkDF (columns df_filtered) (boolean_mask m (rows df_filtered)))
    else Ok df_filtered
  else Ok df_filtered.

(** *** value_counts *)

Definition count_cell (v : cell) (s : list cell) : nat :=
  List.length (filter (cell_eqb v) s).

(** Descending by count; among equal counts the value met first stays
    first. *)
Fixpoint insert_desc (x : cell * nat) (l : list (cell * nat)) : list (cell * nat) :=
  match l with
  | [] => [x]
  | y :: t => if Nat.leb (snd y) (snd x) then x :: l else y :: insert_desc x t
  end.

(** [Series.value_counts()]: missing values are not counted. *)
Definition value_counts (s : list cell) : list (cell * nat) :=
  let present := filter notna s in
  fold_right insert_desc [] (map (fun v => (v, count_cell v present)) (unique present)).

(** [Series.nunique()] *)
Definition nunique (s : list cell) : nat :=
  List.length (unique (filter notna s)).

(** *** Summary (lines 93-105) *)

Inductive top_dia :=
| TopDia (c : cell)
| TopNA.                       (* the text "N/A" *)

Definition dia_com_mais_registros (df_filtered : DataFrame) : result (option top_dia) :=
  if has_column col_dia_da_semana df_filtered then
    col <- series_of df_filtered col_dia_da_semana ;;
    let frequencia_dias := value_counts (snd col) in
    Ok (Some match frequencia_dias with
             | [] => TopNA
             | (v, _) :: _ => TopDia v
             end)
  else Ok None.

Definition focos_distintos (df_filtered : DataFrame) : result (option nat) :=
  if has_column col_foco_principal_do_dia df_filtered then
    col <- series_of df_filtered col_foco_principal_do_dia ;;
    Ok (Some (nunique (snd col)))
  else Ok None.

(** *** Today's actions (lines 111-137) *)

Definition ns_per_day : Z := 86400000000000.

(** [.dt.date] of one element; the calendar date as a day number. *)
Definition dt_date (c : cell) : option Z :=
  match c with
  | CDate t => Some (t / ns_per_day)%Z
  | _ => None
  end.

Definition date_is (hoje : Z) (c : cell) : bool :=
  match dt_date c with
  | Some d => (d =? hoje)%Z
  | None => false
  end.

Definition acoes_hoje (hoje : Z) (df_filtered : DataFrame) : result (option (list row)) :=
  if has_column col_data df_filtered then
    col <- series_of df_filtered col_data ;;
    Ok (Some (boolean_mask (map (date_is hoje) (snd col)) (rows df_filtered)))
  else Ok None.

(** *** Daily detail (lines 143-169) *)

(** Ascending order of the sort key, missing dates last. *)
Definition key_le (a b : option Z) : bool :=
  match a, b with
  | Some x, Some y => (x <=? y)%Z
  | _, None => true
  | None, Some _ => false
  end.

Definition sort_key (i : nat) (r : row) : option Z :=
  match nth i r CNull with
  | CDate t => Some t
  | _ => None
  end.

Fixpoint insert_row (i : nat) (r : row) (l : list row) : list row :=
  match l with
  | [] => [r]
  | y :: t =>
      if key_le (sort_key i r) (sort_key i y) then r :: l
      else y :: insert_row i r t
  end.

(** [df.sort_values(by='data', ascending=True)]: [KeyError] when no column
    has the label, [ValueError] when the label is repeated. *)
Definition sort_values_data (df : DataFrame) : result (nat * DataFrame) :=
  match positions col_data (columns df) 0 with
  | [] => Raise (KeyError col_data)
  | [i] => Ok (i, mkDF (columns df) (fold_right (insert_row i) [] (rows df)))
  | _ => Raise (ValueError (u "The column label 'data' is not unique."))
  end.

Inductive display_date :=
| DataFormatada (s : pystr)
| DataNaoInformada.

(** Line 150, on the cell [row['data']]. *)
Definition display_date_of (c : cell) : result display_date :=
  match c with
  | CNull => Ok DataNaoInformada
  | CDate t => Ok (DataFormatada (strftime_dmy t))
  | _ => Raise (AttributeError (u "strftime"))
  end.

Fixpoint expanders (i : nat) (rs : list row) : result (list (display_date * row)) :=
  match rs with
  | [] => Ok []
  | r :: t =>
      d <- display_date_of (nth i r CNull) ;;
      rest <- expanders i t ;;
      Ok ((d, r) :: rest)
  end.

(** [None] stands for the notice shown when no record is left. *)
Definition detalhes_diarios (df_filtered : DataFrame)
  : result (option (list (display_date * row))) :=
  if negb (df_empty df_filtered) then
    sorted <- sort_values_data df_filtered ;;
    let '(i, df_display) := sorted in
    es <- expanders i (rows df_display) ;;
    Ok (Some es)
  else Ok None.

(** *** Charts (lines 177-209) *)

(** [focus_counts.head(10)] *)
Definition focus_counts (df_filtered : DataFrame) : result (option (list (cell * nat))) :=
  if has_column col_foco_principal_do_dia df_filtered && negb (df_empty df_filtered) then
    col <- series_of df_filtered col_foco_principal_do_dia ;;
    Ok (Some (firstn 10 (value_counts (snd col))))
  else Ok None.

Definition day_order : list pystr :=
  [ u "Domingo"; u "Segunda-feira"; u "Ter" ++ [231] ++ u "a-feira";
    u "Quarta-feira"; u "Quinta-feira"; u "Sexta-feira";
    u "S" ++ [225] ++ u "bado" ].

(** [.reindex(labels).fillna(0)] on the result of [value_counts]. *)
Definition reindex_fillna0 (counts : list (cell * nat)) (labels : list pystr)
  : list (pystr * nat) :=
  map (fun d =>
         (d, match find (fun p => cell_eqb (fst p) (CText d)) counts with
             | Some p => snd p
             | None => O
             end)) labels.

Definition day_counts (df_filtered : DataFrame) : result (option (list (pystr * nat))) :=
  if has_column col_dia_da_semana df_filtered && negb (df_empty df_filtered) then
    col <- series_of df_filtered col_dia_da_semana ;;
    Ok (Some (reindex_fillna0 (value_counts (snd col)) day_order))
  else Ok None.

(** *** The script, top to bottom *)

Record painel := {
  df_filtered : DataFrame;
  total_registros : nat;
  top_dia_da_semana : option top_dia;
  n_focos_distintos : option nat;
  acoes_de_hoje : option (list row);
  detalhes : option (list (display_date * row));
  grafico_focos : option (list (cell * nat));
  grafico_dias : option (list (pystr * nat))
}.

Inductive page :=
| Aguardando                                   (* no file uploaded *)
| SemDados (ns : list notice)                  (* [df.empty] *)
| Painel (ns : list notice) (p : painel).

(** Lines 61-209, for a loaded table that is not empty.  An exception
    raised by one block ends the run. *)
Definition render (ui : UI) (hoje : Z) (df : DataFrame) : result painel :=
  f1 <- filter_dia_da_semana ui df ;;
  f2 <- filter_foco ui df f1 ;;
  top <- dia_com_mais_registros f2 ;;
  focos <- focos_distintos f2 ;;
  today <- acoes_hoje hoje f2 ;;
  det <- detalhes_diarios f2 ;;
  gf <- focus_counts f2 ;;
  gd <- day_counts f2 ;;
  Ok {| df_filtered := f2;
        total_registros := List.length (rows f2);
        top_dia_da_semana := top;
        n_focos_distintos := focos;
        acoes_de_hoje := today;
        detalhes := det;
        grafico_focos := gf;
        grafico_dias := gd |}.

Definition app (uploaded_file : option payload) (ui : UI) (hoje : Z) : result page :=
  match uploaded_file with
  | None => Ok Aguardando
  | Some file =>
      let '(df, ns) := load_data file in
      if negb (df_empty df) then
        p <- render ui hoje df ;;
        Ok (Painel ns p)
      else Ok (SemDados (ns ++ [AvisoNenhumDadoCarregado]))
  end.

(** *** Optional fields of a row (lines 123-131 and 158-166) *)

Definition col_atividades : pystr := u "atividades_essenciais_rotina_di_ria".
Definition col_notas_objetivos : pystr := u "notas_objetivos".

(** [row[name]] for a row of a table with the columns [cols]: a scalar
    when one column has the label, a Series when several have it. *)
Inductive row_item :=
| Scalar (c : cell)
| SubSeries (cs : list cell).

Definition row_getitem (cols : list pystr) (r : row) (name : pystr) : result row_item :=
  match positions name cols 0 with
  | [] => Raise (KeyError name)
  | [i] => Ok (Scalar (nth i r CNull))
  | ps => Ok (SubSeries (map (fun i => nth i r CNull) ps))
  end.

Inductive campo :=
| Informado (c : cell)
| NaoInformado.

(** [if name in row and pd.notna(row[name]): ... else: ...]; the truth
    value of the Series that a repeated label gives is ambiguous. *)
Definition campo_opcional (cols : list pystr) (r : row) (name : pystr) : result campo :=
  if existsb (pystr_eqb name) cols then
    item <- row_getitem cols r name ;;
    match item with
    | Scalar c => if notna c then Ok (Informado c) else Ok NaoInformado
    | SubSeries _ =>
        Raise (ValueError (u "The truth value of a Series is ambiguous."))
    end
  else Ok NaoInformado.

End Program.

(** * An instance to run the model on examples

    The workbook reader is given by its outcome; dates are read in the form
    [YYYY-MM-DD] only; a keyword is searched as plain text; strings with a
    non-ASCII character are lowered on their ASCII letters.  The proofs
    below do not depend on these choices: each is stated for every
    [Externals]. *)

Definition digit_val (c : N) : option Z :=
  if is_digit c then Some (Z.of_N (c - 48)) else None.

(** Days since 1970-01-01 of a date of the proleptic Gregorian calendar. *)
Definition days_from_civil (y m d : Z) : Z :=
  (let y' := if m <=? 2 then y - 1 else y in
   let era := y' / 400 in
   let yoe := y' - era * 400 in
   let mp := (m + 9) mod 12 in
   let doy := (153 * mp + 2) / 5 + d - 1 in
   let doe := yoe * 365 + yoe / 4 - yoe / 100 + doy in
   era * 146097 + doe - 719468)%Z.

Definition parse_iso_date (s : pystr) : option timestamp :=
  match s with
  | [y1; y2; y3; y4; 45; m1; m2; 45; d1; d2] =>
      match digit_val y1, digit_val y2, digit_val y3, digit_val y4,
            digit_val m1, digit_val m2, digit_val d1, digit_val d2 with
      | Some a, Some b, Some c, Some d, Some e, Some f, Some g, Some h =>
          (let y := 1000 * a + 100 * b + 10 * c + d in
           let m := 10 * e + f in
           let dd := 10 * g + h in
           if (1 <=? m) && (m <=? 12) && (1 <=? dd) && (dd <=? 31)
           then Some (days_from_civil y m dd * 86400000000000)
           else None)%Z
      | _, _, _, _, _, _, _, _ => None
      end
  | _ => None
  end.

Definition plain_search (pat s : pystr) : bool :=
  is_infix (map ascii_lower pat) (map ascii_lower s).

#[export] Instance bench : Externals := {|
  payload := result DataFrame;
  read_excel := fun file => file;
  unicode_lower := map ascii_lower;
  parse_datetime := parse_iso_date;
  number_to_datetime := fun n => Some n;
  re_search_ignorecase := fun pat s => Ok (plain_search pat s);
  str_of_timestamp := fun t => u (DecimalString.NilZero.string_of_int (Z.to_int t));
  strftime_dmy := fun t => u (DecimalString.NilZero.string_of_int (Z.to_int t))
|}.

(** * Predicates used in the statements *)

(** The characters a key is made of. *)
Definition is_key_char (c : N) : bool := is_az09 c || is_underscore c.

(** No underscore is followed by an underscore. *)
Fixpoint no_double (s : pystr) : bool :=
  match s with
  | c :: ((d :: _) as t) => negb (is_underscore c && is_underscore d) && no_double t
  | _ => true
  end.

(** What lines 31-33 do to one row when the column [data] is at position
    [i]: the cell is converted in place. *)
Definition coerce_at `{Externals} (i : nat) (r : row) : row :=
  set_nth i (to_datetime_coerce (nth i r CNull)) r.

(** The cell is converted to a date by [pd.to_datetime(..., errors='coerce')]. *)
Definition parses `{Externals} (c : cell) : bool := notna (to_datetime_coerce c).

(** The table of the end-to-end scenario: three rows, the third with a
    date that is no date. *)
Definition three_row_table : DataFrame :=
  mkDF [u "Data"; u "Dia da Semana"; u "Foco Principal do Dia"]
       [ [CText (u "2024-01-01"); CText (u "Segunda-feira"); CText (u "Planejamento")];
         [CText (u "2024-01-02"); CText (u "Ter" ++ [231] ++ u "a-feira");
          CText (u "Execu" ++ [231; 227] ++ u "o")];
         [CText (u "not-a-date"); CText (u "Quarta-feira");
          CText (u "Revis" ++ [227] ++ u "o")] ].

(** Two raw labels that both become the key [data]; every cell is a date
    the example parser reads. *)
Definition two_data_table : DataFrame :=
  mkDF [u "Data"; u "DATA"]
       [ [CText (u "2024-01-01"); CText (u "2024-01-02")] ].

(** Two raw labels that both become the key [foco]. *)
Definition two_foco_table : DataFrame :=
  mkDF [u "Foco"; u "foco"]
       [ [CText (u "planejar"); CText (u "executar")] ].

(** The sidebar left as it opens: every weekday selected, no keyword. *)
Definition ui_default : UI :=
  {| multiselect_dia_da_semana := fun all_days => all_days;
     text_input_foco := [] |}.

Definition ui_keyword (k : pystr) : UI :=
  {| multiselect_dia_da_semana := fun all_days => all_days;
     text_input_foco := k |}.

(** Nothing selected in the weekday box. *)
Definition ui_no_weekday : UI :=
  {| multiselect_dia_da_semana := fun _ => [];
     text_input_foco := [] |}.

(** A canonical table with a weekday column and no [data] column. *)
Definition weekday_only_table : DataFrame :=
  mkDF [col_dia_da_semana] [ [CText (u "Domingo")] ].

(** A canonical table whose only focus cell is empty. *)
Definition missing_focus_table : DataFrame :=
  mkDF [col_foco_principal_do_dia] [ [CNull] ].

(** A canonical table whose only focus cell is a number. *)
Definition numeric_focus_table : DataFrame :=
  mkDF [col_foco_principal_do_dia] [ [CNum 2024%Z] ].

(** Counts that do not increase from one entry to the next. *)
Definition counts_desc (a b : cell * nat) : Prop := (snd b <= snd a)%nat.

(** The weekday chart of a column [s]: each of the seven days with the
    number of cells holding it. *)
Definition weekday_tally (s : list cell) : list (pystr * nat) :=
  map (fun d => (d, count_cell (CText d) s)) day_order.

(** The cell holds one of the seven canonical day names. *)
Definition is_canonical_day (c : cell) : Prop :=
  exists d, In d day_order /\ c = CText d.

(** A filtered table with two Mondays and a day outside the seven names. *)
Definition three_days_table : DataFrame :=
  mkDF [col_dia_da_semana; col_foco_principal_do_dia]
       [ [CText (u "Segunda-feira"); CText (u "Planejamento")];
         [CText (u "Segunda-feira"); CText (u "Planejamento")];
         [CText (u "Feriado"); CText (u "Descanso")] ].

(** An ASCII letter or digit. *)
Definition is_alnum (c : N) : bool := is_upper_az c || is_lower_az c || is_digit c.

(** Only Monday selected in the weekday box. *)
Definition ui_monday : UI :=
  {| multiselect_dia_da_semana := fun _ => [CText (u "Segunda-feira")];
     text_input_foco := [] |}.

(** The order [sort_values] puts two rows in: by date, a row without a
    date after every row with one. *)
Definition data_le (i : nat) (a b : row) : Prop :=
  key_le (sort_key i a) (sort_key i b) = true.

(** * Proofs *)

(** ** Booleans and equality tests *)

Lemma pystr_eqb_eq (a b : pystr) : pystr_eqb a b = true <-> a = b.
Proof.
  unfold pystr_eqb. destruct (list_eq_dec N.eq_dec a b); split; congruence.
Qed.

Lemma pystr_eqb_refl (a : pystr) : pystr_eqb a a = true.
Proof. now apply pystr_eqb_eq. Qed.

Lemma pystr_eqb_neq (a b : pystr) : pystr_eqb a b = false <-> a <> b.
Proof.
  unfold pystr_eqb. destruct (list_eq_dec N.eq_dec a b); split; congruence.
Qed.

Lemma cell_eqb_eq (a b : cell) : cell_eqb a b = true <-> a = b.
Proof. unfold cell_eqb. destruct (cell_eq_dec a b); split; congruence. Qed.

Lemma cell_eqb_refl (a : cell) : cell_eqb a a = true.
Proof. now apply cell_eqb_eq. Qed.

Lemma cell_eqb_neq (a b : cell) : cell_eqb a b = false <-> a <> b.
Proof. unfold cell_eqb. destruct (cell_eq_dec a b); split; congruence. Qed.

(** ** Column keys *)

Ltac char_cases :=
  unfold is_key_char, is_az09, is_lower_az, is_upper_az, is_digit, is_ascii,
    is_underscore, underscore in *;
  repeat match goal with
    | |- context [N.leb ?a ?b] => destruct (N.leb_spec a b)
    | |- context [N.ltb ?a ?b] => destruct (N.ltb_spec a b)
    | |- context [N.eqb ?a ?b] => destruct (N.eqb_spec a b)
    | H : context [N.leb ?a ?b] |- _ => destruct (N.leb_spec a b)
    | H : context [N.ltb ?a ?b] |- _ => destruct (N.ltb_spec a b)
    | H : context [N.eqb ?a ?b] |- _ => destruct (N.eqb_spec a b)
    end;
  simpl in *; try reflexivity; try discriminate; try lia.

Lemma key_char_ascii c : is_key_char c = true -> is_ascii c = true.
Proof. char_cases. Qed.

Lemma key_char_lower c : is_key_char c = true -> ascii_lower c = c.
Proof. unfold ascii_lower. char_cases. Qed.

Lemma key_char_replace c :
  is_key_char (if is_az09 c then c else underscore) = true.
Proof.
  destruct (is_az09 c) eqn:H.
  - unfold is_key_char. now rewrite H.
  - reflexivity.
Qed.

Section NormalizerProofs.
Context {E : Externals}.

Lemma replace_key_chars s : forallb is_key_char (replace_non_az09 s) = true.
Proof.
  induction s as [|c t IH]; simpl; [reflexivity|].
  now rewrite key_char_replace, IH.
Qed.

Lemma replace_fixed s :
  forallb is_key_char s = true -> replace_non_az09 s = s.
Proof.
  induction s as [|c t IH]; simpl; [reflexivity|].
  intros H. apply andb_true_iff in H as [Hc Ht].
  rewrite (IH Ht). unfold replace_non_az09 in *. f_equal.
  destruct (is_az09 c) eqn:Hz; [reflexivity|].
  unfold is_key_char in Hc. rewrite Hz in Hc. simpl in Hc.
  unfold is_underscore in Hc. apply N.eqb_eq in Hc. now subst c.
Qed.

Lemma lower_fixed s : forallb is_key_char s = true -> str_lower s = s.
Proof.
  intros H. unfold str_lower.
  assert (Ha : forallb is_ascii s = true).
  { rewrite forallb_forall in *. intros c Hc. now apply key_char_ascii, H. }
  rewrite Ha. clear Ha.
  induction s as [|c t IH]; simpl in *; [reflexivity|].
  apply andb_true_iff in H as [Hc Ht].
  now rewrite key_char_lower, IH.
Qed.

Lemma collapse_key_chars s :
  forallb is_key_char s = true ->
  forallb is_key_char (collapse_underscores s) = true.
Proof.
  induction s as [|c t IH]; [reflexivity|].
  intros H. simpl in H. apply andb_true_iff in H as [Hc Ht].
  specialize (IH Ht). simpl.
  destruct t as [|d t']; [simpl; now rewrite Hc|].
  destruct (is_underscore c && is_underscore d); [exact IH|].
  change (is_key_char c && forallb is_key_char (collapse_underscores (d :: t')) = true).
  now rewrite Hc, IH.
Qed.

Lemma collapse_head c t :
  exists t', collapse_underscores (c :: t) = c :: t'.
Proof.
  revert c. induction t as [|d t IH]; intros c; [now exists []|].
  simpl. destruct (is_underscore c && is_underscore d) eqn:H.
  - apply andb_true_iff in H as [Hc Hd].
    unfold is_underscore in *. apply N.eqb_eq in Hc, Hd. subst.
    apply (IH underscore).
  - eexists. reflexivity.
Qed.

Lemma collapse_no_double s : no_double (collapse_underscores s) = true.
Proof.
  induction s as [|c t IH]; [reflexivity|].
  destruct t as [|d t']; [reflexivity|].
  change (collapse_underscores (c :: d :: t'))
    with (if is_underscore c && is_underscore d
          then collapse_underscores (d :: t')
          else c :: collapse_underscores (d :: t')).
  destruct (is_underscore c && is_underscore d) eqn:H; [exact IH|].
  destruct (collapse_head d t') as [r Hr]. rewrite Hr in *.
  simpl. rewrite H. simpl. exact IH.
Qed.

Lemma collapse_fixed s : no_double s = true -> collapse_underscores s = s.
Proof.
  induction s as [|c t IH]; [reflexivity|].
  destruct t as [|d t']; [reflexivity|].
  intros H. simpl in H. apply andb_true_iff in H as [H1 H2].
  apply negb_true_iff in H1.
  change (collapse_underscores (c :: d :: t'))
    with (if is_underscore c && is_underscore d
          then collapse_underscores (d :: t')
          else c :: collapse_underscores (d :: t')).
  rewrite H1. f_equal. now apply IH.
Qed.

Lemma lstrip_key_chars s :
  forallb is_key_char s = true ->
  forallb is_key_char (lstrip_underscores s) = true.
Proof.
  induction s as [|c t IH]; [reflexivity|].
  intros H. simpl. destruct (is_underscore c); [|exact H].
  simpl in H. apply andb_true_iff in H as [_ Ht]. now apply IH.
Qed.

Lemma no_double_tail c t : no_double (c :: t) = true -> no_double t = true.
Proof.
  destruct t as [|d t']; [reflexivity|].
  simpl. intros H. now apply andb_true_iff in H as [_ H].
Qed.

Lemma lstrip_no_double s :
  no_double s = true -> no_double (lstrip_underscores s) = true.
Proof.
  induction s as [|c t IH]; [reflexivity|].
  intros H. simpl. destruct (is_underscore c); [|exact H].
  apply IH. now apply no_double_tail in H.
Qed.

Lemma lstrip_fixed c t :
  is_underscore c = false -> lstrip_underscores (c :: t) = c :: t.
Proof. intros H. simpl. now rewrite H. Qed.

(** What [lstrip_underscores] returns does not start with an underscore. *)
Lemma lstrip_clean s :
  match lstrip_underscores s with
  | [] => True
  | c :: _ => is_underscore c = false
  end.
Proof.
  induction s as [|c t IH]; simpl; [exact I|].
  destruct (is_underscore c) eqn:H; [exact IH|exact H].
Qed.

Lemma rstrip_key_chars s :
  forallb is_key_char s = true ->
  forallb is_key_char (rstrip_underscores s) = true.
Proof.
  induction s as [|c t IH]; [reflexivity|].
  intros H. simpl in H. apply andb_true_iff in H as [Hc Ht].
  specialize (IH Ht). simpl.
  destruct (rstrip_underscores t) as [|d r].
  - destruct (is_underscore c); simpl; [reflexivity|now rewrite Hc].
  - change (is_key_char c && forallb is_key_char (d :: r) = true).
    now rewrite Hc, IH.
Qed.

(** [rstrip_underscores] keeps the first character of what it keeps. *)
Lemma rstrip_head t d r :
  rstrip_underscores t = d :: r -> exists t', t = d :: t'.
Proof.
  destruct t as [|c t']; simpl; [discriminate|].
  destruct (rstrip_underscores t') as [|d' r'].
  - destruct (is_underscore c); [discriminate|].
    intros H. injection H as -> _. now exists t'.
  - intros H. injection H as -> _. now exists t'.
Qed.

Lemma rstrip_no_double s :
  no_double s = true -> no_double (rstrip_underscores s) = true.
Proof.
  induction s as [|c t IH]; [reflexivity|].
  intros H. pose proof (no_double_tail _ _ H) as Ht.
  specialize (IH Ht). simpl.
  destruct (rstrip_underscores t) as [|d r] eqn:Hr.
  - now destruct (is_underscore c).
  - destruct (rstrip_head _ _ _ Hr) as [t' ->].
    simpl in H. apply andb_true_iff in H as [H1 _].
    simpl. rewrite H1. exact IH.
Qed.

Lemma rstrip_idempotent s :
  rstrip_underscores (rstrip_underscores s) = rstrip_underscores s.
Proof.
  induction s as [|c t IH]; [reflexivity|].
  simpl. destruct (rstrip_underscores t) as [|d r] eqn:Hr.
  - destruct (is_underscore c) eqn:Hc; simpl; [reflexivity|now rewrite Hc].
  - change (rstrip_underscores (c :: d :: r))
      with (match rstrip_underscores (d :: r) with
            | [] => if is_underscore c then [] else [c]
            | x => c :: x
            end).
    now rewrite IH.
Qed.

(** A string that does not start with an underscore keeps its first
    character under [rstrip_underscores]. *)
Lemma rstrip_keeps_clean_head c t :
  is_underscore c = false ->
  exists r, rstrip_underscores (c :: t) = c :: r.
Proof.
  intros H. simpl. destruct (rstrip_underscores t) as [|d r].
  - rewrite H. now exists [].
  - now exists (d :: r).
Qed.

Lemma strip_lstrip_fixed s :
  lstrip_underscores (strip_underscores s) = strip_underscores s.
Proof.
  unfold strip_underscores.
  pose proof (lstrip_clean s) as Hc.
  destruct (lstrip_underscores s) as [|c t]; [reflexivity|].
  destruct (rstrip_keeps_clean_head c t Hc) as [r ->].
  now apply lstrip_fixed.
Qed.

Lemma strip_idempotent s :
  strip_underscores (strip_underscores s) = strip_underscores s.
Proof.
  unfold strip_underscores at 1. rewrite strip_lstrip_fixed.
  unfold strip_underscores. apply rstrip_idempotent.
Qed.

Lemma normalize_label_key_chars s :
  forallb is_key_char (normalize_label s) = true.
Proof.
  unfold normalize_label, strip_underscores.
  apply rstrip_key_chars, lstrip_key_chars, collapse_key_chars, replace_key_chars.
Qed.

Lemma normalize_label_no_double s : no_double (normalize_label s) = true.
Proof.
  unfold normalize_label, strip_underscores.
  apply rstrip_no_double, lstrip_no_double, collapse_no_double.
Qed.

Lemma normalize_label_twice s :
  normalize_label (normalize_label s) = normalize_label s.
Proof.
  unfold normalize_label at 1.
  rewrite (lower_fixed _ (normalize_label_key_chars s)).
  rewrite (replace_fixed _ (normalize_label_key_chars s)).
  rewrite (collapse_fixed _ (normalize_label_no_double s)).
  unfold normalize_label. apply strip_idempotent.
Qed.

End NormalizerProofs.

(** ** Columns and rows *)

Lemma pystr_eqb_sym (a b : pystr) : pystr_eqb a b = pystr_eqb b a.
Proof.
  destruct (pystr_eqb b a) eqn:H.
  - apply pystr_eqb_eq in H. subst. apply pystr_eqb_refl.
  - apply pystr_eqb_neq in H. apply pystr_eqb_neq. congruence.
Qed.

Lemma has_column_positions name df k :
  has_column name df = nonempty (positions name (columns df) k).
Proof.
  unfold has_column. generalize (columns df) as cols. intros cols. revert k.
  induction cols as [|c t IH]; intros k; simpl; [reflexivity|].
  rewrite (pystr_eqb_sym name c).
  destruct (pystr_eqb c name); [reflexivity|apply IH].
Qed.

Lemma positions_bound name cols k i :
  In i (positions name cols k) -> (k <= i < k + List.length cols)%nat.
Proof.
  revert k. induction cols as [|c t IH]; intros k; simpl; [tauto|].
  destruct (pystr_eqb c name).
  - intros [<-|H]; [lia|]. apply IH in H. lia.
  - intros H. apply IH in H. lia.
Qed.

Lemma positions_nth name cols k i :
  In i (positions name cols k) -> nth_error cols (i - k) = Some name.
Proof.
  revert k. induction cols as [|c t IH]; intros k; simpl; [tauto|].
  destruct (pystr_eqb c name) eqn:Hc.
  - intros [<-|H].
    + rewrite Nat.sub_diag. simpl. apply pystr_eqb_eq in Hc. now subst.
    + pose proof (positions_bound _ _ _ _ H) as Hb.
      apply IH in H. replace (i - k)%nat with (S (i - S k)) by lia. exact H.
  - intros H. pose proof (positions_bound _ _ _ _ H) as Hb.
    apply IH in H. replace (i - k)%nat with (S (i - S k)) by lia. exact H.
Qed.

Lemma set_nth_same i (r : row) : set_nth i (nth i r CNull) r = r.
Proof.
  revert i. induction r as [|c t IH]; intros [|i]; simpl; try reflexivity.
  now rewrite IH.
Qed.

Lemma set_nth_length i v (r : row) : List.length (set_nth i v r) = List.length r.
Proof.
  revert i. induction r as [|c t IH]; intros [|i]; simpl; try reflexivity.
  now rewrite IH.
Qed.

Lemma nth_set_nth_other i j v (r : row) :
  i <> j -> nth j (set_nth i v r) CNull = nth j r CNull.
Proof.
  revert i j. induction r as [|c t IH]; intros [|i] [|j] H; simpl;
    try reflexivity; try congruence.
  apply IH. congruence.
Qed.

(** After the assignment the cell is the new value, or the row was too
    short to have the cell. *)
Lemma nth_set_nth_same i v (r : row) :
  nth i (set_nth i v r) CNull = v \/ nth i (set_nth i v r) CNull = CNull.
Proof.
  revert i. induction r as [|c t IH]; intros [|i]; simpl; auto.
Qed.

Lemma assign_column_map i (f : cell -> cell) (rs : list row) :
  assign_column i (map f (column_at i rs)) rs
  = map (fun r => set_nth i (f (nth i r CNull)) r) rs.
Proof.
  induction rs as [|r t IH]; simpl; [reflexivity|].
  now rewrite IH.
Qed.

Section LoadProofs.
Context {E : Externals}.

Lemma coerce_null_or_date c :
  to_datetime_coerce c = CNull \/ exists t, to_datetime_coerce c = CDate t.
Proof.
  destruct c as [|s|n|t]; simpl; eauto.
  - destruct (parse_datetime s); eauto.
  - destruct (number_to_datetime n); eauto.
Qed.

(** The decision of [load_data] on the canonical header. *)
Lemma normalize_frame_cases raw :
  let cols := map normalize_label (columns raw) in
  match positions col_data cols 0 with
  | [] => normalize_frame raw = Ok (mkDF cols (rows raw), [AvisoColunaDataAusente])
  | [i] => normalize_frame raw
           = Ok (mkDF cols (dropna_at i (map (coerce_at i) (rows raw))), [])
  | _ :: _ :: _ =>
      normalize_frame raw = Raise (ValueError (u "cannot assemble with duplicate keys"))
  end.
Proof.
  intros cols. unfold normalize_frame.
  rewrite (has_column_positions col_data _ 0). simpl columns. fold cols.
  unfold getitem. simpl columns. fold cols.
  destruct (positions col_data cols 0) as [|i [|j ps]]; simpl; try reflexivity.
  rewrite assign_column_map. reflexivity.
Qed.

Lemma coerce_at_date i r :
  notna (nth i (coerce_at i r) CNull) = true ->
  exists t, nth i (coerce_at i r) CNull = CDate t.
Proof.
  unfold coerce_at. intros H.
  destruct (nth_set_nth_same i (to_datetime_coerce (nth i r CNull)) r) as [Hv|Hv];
    rewrite Hv in *; [|discriminate].
  destruct (coerce_null_or_date (nth i r CNull)) as [Hn|[t Ht]].
  - rewrite Hn in H. discriminate.
  - eauto.
Qed.

Lemma coerce_at_fixed i r t : nth i r CNull = CDate t -> coerce_at i r = r.
Proof.
  intros H. unfold coerce_at. rewrite H. simpl. rewrite <- H. apply set_nth_same.
Qed.

Lemma nth_set_nth_in i v (r : row) :
  (i < List.length r)%nat -> nth i (set_nth i v r) CNull = v.
Proof.
  revert i. induction r as [|c t IH]; intros [|i] H; simpl in *; try lia.
  - reflexivity.
  - apply IH. lia.
Qed.

Lemma notna_coerce_at i r :
  notna (nth i (coerce_at i r) CNull) = parses (nth i r CNull).
Proof.
  unfold coerce_at, parses.
  destruct (Nat.lt_ge_cases i (List.length r)) as [Hin|Hout].
  - now rewrite nth_set_nth_in.
  - rewrite (nth_overflow r CNull Hout). simpl.
    rewrite nth_overflow; [reflexivity|]. now rewrite set_nth_length.
Qed.

Lemma dropna_coerce i (rs : list row) :
  dropna_at i (map (coerce_at i) rs)
  = map (coerce_at i) (filter (fun r => parses (nth i r CNull)) rs).
Proof.
  unfold dropna_at. induction rs as [|r t IH]; simpl; [reflexivity|].
  rewrite notna_coerce_at. destruct (parses (nth i r CNull)); simpl; now rewrite IH.
Qed.

(** The table [load_data] returns, by the number of columns whose key is
    [data]. *)
Lemma normalize_cases raw :
  let cols := map normalize_label (columns raw) in
  match positions col_data cols 0 with
  | [] => normalize raw = mkDF cols (rows raw)
  | [i] => normalize raw = mkDF cols (dropna_at i (map (coerce_at i) (rows raw)))
  | _ :: _ :: _ => normalize raw = empty_frame
  end.
Proof.
  intros cols. pose proof (normalize_frame_cases raw) as H. cbv zeta in H.
  fold cols in H.
  unfold normalize.
  destruct (positions col_data cols 0) as [|i [|j ps]]; now rewrite H.
Qed.

Lemma normalize_rows_dated raw i :
  positions col_data (map normalize_label (columns raw)) 0 = [i] ->
  Forall (fun r => exists t, nth i r CNull = CDate t) (rows (normalize raw)).
Proof.
  intros Hp. pose proof (normalize_cases raw) as H. cbv zeta in H. rewrite Hp in H.
  rewrite H. simpl. unfold dropna_at. apply Forall_forall. intros r Hr.
  apply filter_In in Hr as [Hin Hn]. apply in_map_iff in Hin as [r0 [<- _]].
  now apply coerce_at_date.
Qed.

Lemma dated_rows_fixed i (rs : list row) :
  Forall (fun r => exists t, nth i r CNull = CDate t) rs ->
  dropna_at i (map (coerce_at i) rs) = rs.
Proof.
  unfold dropna_at. induction 1 as [|r t [d Hd] _ IH]; simpl; [reflexivity|].
  rewrite (coerce_at_fixed _ _ _ Hd), Hd. simpl. now rewrite IH.
Qed.

Lemma normalize_columns_twice raw :
  map normalize_label (map normalize_label (columns raw))
  = map normalize_label (columns raw).
Proof.
  rewrite map_map. apply map_ext. intros a. apply normalize_label_twice.
Qed.

Lemma normalize_twice raw : normalize (normalize raw) = normalize raw.
Proof.
  pose proof (normalize_cases raw) as H1. cbv zeta in H1.
  pose proof (normalize_cases (normalize raw)) as H2. cbv zeta in H2.
  destruct (positions col_data (map normalize_label (columns raw)) 0)
    as [|i [|j ps]] eqn:Hp.
  - rewrite H1 in H2 |- *. simpl columns in H2. simpl rows in H2.
    rewrite normalize_columns_twice, Hp in H2. exact H2.
  - pose proof (normalize_rows_dated raw i Hp) as Hd.
    rewrite H1 in H2, Hd |- *. simpl columns in H2. simpl rows in H2, Hd.
    rewrite normalize_columns_twice, Hp in H2.
    now rewrite (dated_rows_fixed _ _ Hd) in H2.
  - rewrite H1 in H2 |- *. exact H2.
Qed.

End LoadProofs.

(** ** The normaliser: idempotence, dropped rows, colliding labels *)

Section NormalizerTheorems.
Context {E : Externals}.

(** C4. The column-key transform is idempotent on every label, and so is
    normalisation of a whole table: normalising a canonical table again
    returns it unchanged. *)
Theorem normalize_idempotent :
  (forall label : pystr,
      normalize_label (normalize_label label) = normalize_label label)
  /\ (forall T : DataFrame, normalize (normalize T) = normalize T).
Proof.
  split.
  - exact normalize_label_twice.
  - exact normalize_twice.
Qed.

Lemma filter_length_le {A} (f : A -> bool) (l : list A) :
  (List.length (filter f l) <= List.length l)%nat.
Proof.
  induction l as [|a t IH]; simpl; [lia|].
  destruct (f a); simpl; lia.
Qed.

Lemma normalize_row_count raw :
  (List.length (rows (normalize raw)) <= List.length (rows raw))%nat.
Proof.
  pose proof (normalize_cases raw) as H. cbv zeta in H.
  destruct (positions col_data (map normalize_label (columns raw)) 0)
    as [|i [|j ps]]; rewrite H; simpl.
  - lia.
  - unfold dropna_at. etransitivity; [apply filter_length_le|].
    now rewrite length_map.
  - lia.
Qed.

Lemma three_row_header :
  map normalize_label (columns three_row_table)
  = [col_data; col_dia_da_semana; col_foco_principal_do_dia].
Proof. vm_compute. reflexivity. Qed.

(** C5, as amended.  When exactly one column has the key [data],
    normalisation keeps exactly the rows whose [data] cell is converted to
    a date, in their order, with that cell converted and every other cell
    untouched; rows are never added, for any table; and the three-row
    scenario keeps its first two rows. *)
Theorem normalize_drops_unparsable_rows :
  (forall (T : DataFrame) (i : nat),
      positions col_data (map normalize_label (columns T)) 0 = [i] ->
      rows (normalize T)
      = map (coerce_at i) (filter (fun r => parses (nth i r CNull)) (rows T))
      /\ forall (r : row) (j : nat),
          j <> i -> nth j (coerce_at i r) CNull = nth j r CNull)
  /\ (forall T : DataFrame,
        (List.length (rows (normalize T)) <= List.length (rows T))%nat)
  /\ (forall t1 t2 : timestamp,
        parse_datetime (u "2024-01-01") = Some t1 ->
        parse_datetime (u "2024-01-02") = Some t2 ->
        parse_datetime (u "not-a-date") = None ->
        List.length (rows (normalize three_row_table)) = 2%nat).
Proof.
  split; [|split].
  - intros T i Hp. split.
    + pose proof (normalize_cases T) as H. cbv zeta in H. rewrite Hp in H.
      rewrite H. simpl. apply dropna_coerce.
    + intros r j Hj. unfold coerce_at. apply nth_set_nth_other. congruence.
  - exact normalize_row_count.
  - intros t1 t2 H1 H2 H3.
    pose proof (normalize_cases three_row_table) as H. cbv zeta in H.
    rewrite three_row_header in H.
    change (positions col_data
              [col_data; col_dia_da_semana; col_foco_principal_do_dia] 0)
      with [0%nat] in H.
    rewrite H. cbn [rows]. rewrite dropna_coerce, length_map.
    unfold three_row_table. cbn [rows filter nth].
    unfold parses. cbn [to_datetime_coerce].
    rewrite H1, H2, H3. reflexivity.
Qed.

Lemma nth_error_positions name cols k i :
  nth_error cols i = Some name -> In (k + i)%nat (positions name cols k).
Proof.
  revert k i. induction cols as [|c t IH]; intros k [|i] H; simpl in *;
    try discriminate.
  - injection H as ->. rewrite pystr_eqb_refl, Nat.add_0_r. now left.
  - apply (IH (S k)) in H. replace (k + S i)%nat with (S k + i)%nat by lia.
    destruct (pystr_eqb c name); [now right|exact H].
Qed.

Lemma two_members {A} (l : list A) (x y : A) :
  In x l -> In y l -> x <> y -> exists a b t, l = a :: b :: t.
Proof.
  destruct l as [|a [|b t]]; simpl; intros Hx Hy Hn.
  - tauto.
  - destruct Hx as [<-|[]], Hy as [<-|[]]. congruence.
  - eauto.
Qed.

(** C9, as amended.  Two raw labels with the same key both stay in the
    canonical table, each at its own position under that key and each
    with its own values, as long as the load does not fail; when the key
    they share is [data] the load fails and the table returned is empty. *)
Theorem collision_keeps_both_columns (T : DataFrame) (i j : nat) (a b : pystr) :
  i <> j ->
  nth_error (columns T) i = Some a ->
  nth_error (columns T) j = Some b ->
  normalize_label a = normalize_label b ->
  ((List.length (positions col_data (map normalize_label (columns T)) 0) <= 1)%nat ->
   nth_error (columns (normalize T)) i = Some (normalize_label a)
   /\ nth_error (columns (normalize T)) j = Some (normalize_label a)
   /\ Forall (fun r' => exists r, In r (rows T)
                          /\ nth i r' CNull = nth i r CNull
                          /\ nth j r' CNull = nth j r CNull)
             (rows (normalize T)))
  /\ (normalize_label a = col_data -> normalize T = empty_frame).
Proof.
  intros Hij Ha Hb Hab.
  assert (Hi : nth_error (map normalize_label (columns T)) i = Some (normalize_label a))
    by (rewrite nth_error_map, Ha; reflexivity).
  assert (Hj : nth_error (map normalize_label (columns T)) j = Some (normalize_label a))
    by (rewrite nth_error_map, Hb, Hab; reflexivity).
  pose proof (normalize_cases T) as H. cbv zeta in H.
  split.
  - intros Hlen.
    destruct (positions col_data (map normalize_label (columns T)) 0)
      as [|d [|d' ps]] eqn:Hp; [| |simpl in Hlen; lia]; rewrite H; simpl.
    + repeat split; try assumption.
      apply Forall_forall. intros r Hr. exists r. auto.
    + repeat split; try assumption.
      assert (Hd : nth_error (map normalize_label (columns T)) d = Some col_data).
      { replace d with (d - 0)%nat by lia. apply positions_nth. rewrite Hp. now left. }
      assert (Hkey : normalize_label a <> col_data).
      { intros Hk. rewrite Hk in Hi, Hj.
        apply (nth_error_positions _ _ 0) in Hi, Hj. rewrite Hp in Hi, Hj.
        simpl in Hi, Hj. lia. }
      assert (i <> d) by (intros ->; congruence).
      assert (j <> d) by (intros ->; congruence).
      apply Forall_forall. intros r' Hr'. unfold dropna_at in Hr'.
      apply filter_In in Hr' as [Hr' _]. apply in_map_iff in Hr' as [r [<- Hr]].
      exists r. unfold coerce_at.
      rewrite !nth_set_nth_other by congruence. auto.
  - intros Hk. rewrite Hk in Hi, Hj.
    apply (nth_error_positions _ _ 0) in Hi, Hj.
    destruct (two_members _ _ _ Hi Hj) as [x [y [t Hp]]]; [simpl; lia|].
    simpl in Hp. rewrite Hp in H. exact H.
Qed.

End NormalizerTheorems.

(** C5, at an input: both labels of [two_data_table] become [data] and
    every cell of its row is a date, yet the row is gone after
    normalisation. *)
Lemma repeated_data_key_drops_dated_rows :
  has_column col_data
    (mkDF (map (normalize_label (E:=bench)) (columns two_data_table))
          (rows two_data_table)) = true
  /\ Forall (Forall (fun c => parses (H:=bench) c = true)) (rows two_data_table)
  /\ List.length (rows two_data_table) = 1%nat
  /\ rows (normalize (E:=bench) two_data_table) = [].
Proof.
  repeat split.
  repeat constructor.
Qed.

(** C9, at an input: [Foco] and [foco] share the key [foco]; the canonical
    table has that key twice and still holds the value of the earlier
    column. *)
Lemma collision_does_not_overwrite :
  u "Foco" <> u "foco"
  /\ normalize_label (E:=bench) (u "Foco") = normalize_label (E:=bench) (u "foco")
  /\ count_occ (list_eq_dec N.eq_dec)
       (columns (normalize (E:=bench) two_foco_table)) (u "foco") = 2%nat
  /\ rows (normalize (E:=bench) two_foco_table)
     = [ [CText (u "planejar"); CText (u "executar")] ].
Proof.
  repeat split. discriminate.
Qed.

(** C5, an instance: the three-row scenario read with the example parser. *)
Lemma normalize_drops_unparsable_rows_witness :
  rows (normalize (E:=bench) three_row_table)
  = map (coerce_at (H:=bench) 0)
        (filter (fun r => parses (H:=bench) (nth 0 r CNull)) (rows three_row_table))
  /\ List.length (rows (normalize (E:=bench) three_row_table)) = 2%nat.
Proof.
  destruct (normalize_drops_unparsable_rows (E:=bench)) as [H1 [_ H3]].
  split.
  - apply (H1 three_row_table 0%nat). reflexivity.
  - apply (H3 1704067200000000000%Z 1704153600000000000%Z); reflexivity.
Defined.

(** C9, an instance: [Foco] and [foco] in [two_foco_table]. *)
Lemma collision_keeps_both_columns_witness :
  nth_error (columns (normalize (E:=bench) two_foco_table)) 0 = Some (u "foco")
  /\ nth_error (columns (normalize (E:=bench) two_foco_table)) 1 = Some (u "foco").
Proof.
  destruct (collision_keeps_both_columns (E:=bench) two_foco_table 0 1
              (u "Foco") (u "foco")) as [H _];
    [discriminate | reflexivity | reflexivity | reflexivity |].
  destruct H as [A [B _]]; [simpl; lia|].
  split; [exact A|exact B].
Defined.

(** ** The engine: filters *)

Ltac bind_inv H :=
  repeat match type of H with
    | bind ?r _ = _ =>
        let x := fresh "x" in
        let Hx := fresh "Hx" in
        destruct r as [x|?] eqn:Hx; cbn [bind] in H; [|discriminate H]
    end.

Lemma bind_ok {A B} (r : result A) (k : A -> result B) (b : B) :
  bind r k = Ok b -> exists a, r = Ok a /\ k a = Ok b.
Proof. destruct r as [a|e]; simpl; [eauto|discriminate]. Qed.

Lemma boolean_mask_incl (m : list bool) (rs : list row) :
  incl (boolean_mask m rs) rs.
Proof.
  revert rs. induction m as [|b m IH]; intros [|r rs]; simpl;
    try (intros x []).
  destruct b.
  - intros x [<-|Hx]; [now left|right; now apply IH].
  - intros x Hx. right. now apply IH.
Qed.

Section EngineProofs.
Context {E : Externals}.

Lemma series_of_inv df name i s :
  series_of df name = Ok (i, s) ->
  positions name (columns df) 0 = [i] /\ s = column_at i (rows df).
Proof.
  unfold series_of, getitem.
  destruct (positions name (columns df) 0) as [|k [|k' ps]]; simpl;
    try discriminate.
  intros H. injection H as <- <-. auto.
Qed.

Lemma series_of_unique df name i :
  positions name (columns df) 0 = [i] ->
  series_of df name = Ok (i, column_at i (rows df)).
Proof. intros H. unfold series_of, getitem. now rewrite H. Qed.

Lemma filter_dia_da_semana_inv ui df f :
  filter_dia_da_semana ui df = Ok f ->
  columns f = columns df /\ incl (rows f) (rows df).
Proof.
  unfold filter_dia_da_semana.
  destruct (has_column col_dia_da_semana df).
  - intros H. bind_inv H.
    destruct (nonempty _); injection H as <-; simpl.
    + split; [reflexivity|apply boolean_mask_incl].
    + split; [reflexivity|apply incl_refl].
  - intros H. injection H as <-. split; [reflexivity|apply incl_refl].
Qed.

Lemma filter_foco_inv ui df f1 f :
  filter_foco ui df f1 = Ok f ->
  columns f = columns f1 /\ incl (rows f) (rows f1).
Proof.
  unfold filter_foco.
  destruct (has_column col_foco_principal_do_dia df).
  - destruct (nonempty _).
    + intros H. bind_inv H. injection H as <-; simpl.
      split; [reflexivity|apply boolean_mask_incl].
    + intros H. injection H as <-. split; [reflexivity|apply incl_refl].
  - intros H. injection H as <-. split; [reflexivity|apply incl_refl].
Qed.

(** A filtered table that was produced has at most one column named
    [dia_da_semana]: the weekday filter reads it as a Series. *)
Lemma filter_dia_da_semana_series ui df f :
  filter_dia_da_semana ui df = Ok f ->
  has_column col_dia_da_semana df = true ->
  exists i, positions col_dia_da_semana (columns df) 0 = [i].
Proof.
  unfold filter_dia_da_semana. intros H Hc. rewrite Hc in H.
  bind_inv H. destruct x as [i s]. apply series_of_inv in Hx as [Hp _].
  now exists i.
Qed.

(** C3. With a [dia_da_semana] column and the weekday box on the page
    (built from the distinct values [unique s] of the column [s]), an empty
    selection leaves the table as it is: the filtered table is the
    canonical table. *)
Theorem empty_weekday_selection_selects_all
    (ui : UI) (df : DataFrame) (i : nat) (s : list cell) :
  has_column col_dia_da_semana df = true ->
  series_of df col_dia_da_semana = Ok (i, s) ->
  multiselect_dia_da_semana ui (unique s) = [] ->
  filter_dia_da_semana ui df = Ok df.
Proof.
  intros Hc Hs Hsel. unfold filter_dia_da_semana.
  rewrite Hc, Hs. cbn [bind snd]. now rewrite Hsel.
Qed.

(** ** The engine: daily detail *)

Lemma insert_row_in i r l x :
  In x (insert_row i r l) <-> x = r \/ In x l.
Proof.
  induction l as [|y t IH]; simpl.
  - intuition.
  - destruct (key_le (sort_key i r) (sort_key i y)); simpl.
    + intuition.
    + rewrite IH. intuition.
Qed.

Lemma sorted_rows_in i rs x :
  In x (fold_right (insert_row i) [] rs) <-> In x rs.
Proof.
  induction rs as [|r t IH]; simpl; [tauto|].
  rewrite insert_row_in, IH. intuition.
Qed.

Lemma expanders_dated i rs es :
  Forall (fun r => exists t, nth i r CNull = CDate t) rs ->
  expanders i rs = Ok es ->
  Forall (fun e => exists t, fst e = DataFormatada (strftime_dmy t)) es.
Proof.
  intros Hd. revert es. induction Hd as [|r t [d Hr] _ IH]; intros es; simpl.
  - intros H. injection H as <-. constructor.
  - rewrite Hr. cbn [display_date_of bind]. intros H. bind_inv H.
    injection H as <-. constructor; [now exists d|now apply IH].
Qed.

Lemma normalize_data_position raw i :
  positions col_data (columns (normalize raw)) 0 = [i] ->
  positions col_data (map normalize_label (columns raw)) 0 = [i].
Proof.
  pose proof (normalize_cases raw) as H. cbv zeta in H.
  destruct (positions col_data (map normalize_label (columns raw)) 0)
    as [|k [|k' ps]] eqn:Hp; rewrite H; simpl; try rewrite Hp; try discriminate.
  auto.
Qed.

Lemma load_data_read file raw :
  read_excel file = Ok raw ->
  load_data file = or_empty (normalize_frame raw).
Proof. intros H. unfold load_data. now rewrite H. Qed.

(** Whatever the sidebar holds, the expanders of a table that came out of
    the normaliser all carry a formatted date. *)
Lemma detalhes_of_normalized raw ui hoje p es :
  render ui hoje (normalize raw) = Ok p ->
  detalhes p = Some es ->
  Forall (fun e => exists t, fst e = DataFormatada (strftime_dmy t)) es.
Proof.
  unfold render. intros H Hes.
  apply bind_ok in H as [f1 [Hf1 H]].
  apply bind_ok in H as [f2 [Hf2 H]].
  apply bind_ok in H as [top [_ H]].
  apply bind_ok in H as [focos [_ H]].
  apply bind_ok in H as [today [_ H]].
  apply bind_ok in H as [det [Hdet H]].
  apply bind_ok in H as [gf [_ H]].
  apply bind_ok in H as [gd [_ H]].
  injection H as <-. simpl in Hes. subst det.
  apply filter_dia_da_semana_inv in Hf1 as [Hc1 Hr1].
  apply filter_foco_inv in Hf2 as [Hc2 Hr2].
  unfold detalhes_diarios in Hdet.
  destruct (negb (df_empty f2)); [|discriminate].
  apply bind_ok in Hdet as [[i df_display] [Hsort Hdet]].
  apply bind_ok in Hdet as [es' [Hexp Hdet]].
  injection Hdet as ->.
  unfold sort_values_data in Hsort.
  destruct (positions col_data (columns f2) 0) as [|k [|k' ps]] eqn:Hp;
    try discriminate.
  injection Hsort as <- <-. simpl in Hexp.
  rewrite Hc2, Hc1 in Hp. apply normalize_data_position in Hp.
  pose proof (normalize_rows_dated raw k Hp) as Hd.
  apply (expanders_dated k _ _) in Hexp; [exact Hexp|].
  apply Forall_forall. intros r Hr. apply sorted_rows_in in Hr.
  rewrite Forall_forall in Hd. apply Hd, Hr1, Hr2, Hr.
Qed.

(** C10. When the workbook is read and its canonical header has the key
    [data], every row of the table [load_data] returns holds a date in its
    [data] cell; and in the page built from it no expander of the daily
    detail shows the text for a missing date. *)
Theorem loaded_rows_have_a_date (file : payload) (raw : DataFrame) :
  read_excel file = Ok raw ->
  has_column col_data (mkDF (map normalize_label (columns raw)) (rows raw)) = true ->
  (forall r : row,
      In r (rows (fst (load_data file))) ->
      exists (i : nat) (t : timestamp),
        positions col_data (columns (fst (load_data file))) 0 = [i]
        /\ nth i r CNull = CDate t)
  /\ (forall (ui : UI) (hoje : Z) (ns : list notice) (p : painel)
             (es : list (display_date * row)) (d : display_date) (r : row),
        app (Some file) ui hoje = Ok (Painel ns p) ->
        detalhes p = Some es ->
        In (d, r) es ->
        d <> DataNaoInformada).
Proof.
  intros Hread Hcol.
  pose proof (load_data_read _ _ Hread) as Hload.
  assert (Hfst : fst (load_data file) = normalize raw)
    by (now rewrite Hload).
  split.
  - rewrite Hfst. intros r Hr.
    rewrite (has_column_positions col_data _ 0) in Hcol. simpl columns in Hcol.
    pose proof (normalize_cases raw) as H. cbv zeta in H.
    destruct (positions col_data (map normalize_label (columns raw)) 0)
      as [|k [|k' ps]] eqn:Hp; try discriminate.
    + pose proof (normalize_rows_dated raw k Hp) as Hd.
      rewrite Forall_forall in Hd. destruct (Hd r Hr) as [t Ht].
      exists k, t. split; [|exact Ht].
      rewrite H. simpl. exact Hp.
    + rewrite H in Hr. destruct Hr.
  - intros ui hoje ns p es d r Happ Hes Hin.
    unfold app in Happ. destruct (load_data file) as [df ns'] eqn:Hl.
    simpl in Hfst. subst df.
    destruct (negb (df_empty (normalize raw))); [|discriminate].
    apply bind_ok in Happ as [p' [Hrender Happ]]. injection Happ as <- <-.
    pose proof (detalhes_of_normalized _ _ _ _ _ Hrender Hes) as Hall.
    rewrite Forall_forall in Hall. destruct (Hall _ Hin) as [t Ht].
    simpl in Ht. rewrite Ht. discriminate.
Qed.

End EngineProofs.

(** C3, an instance: nothing selected on [weekday_only_table]. *)
Lemma empty_weekday_selection_selects_all_witness :
  filter_dia_da_semana ui_no_weekday weekday_only_table = Ok weekday_only_table.
Proof.
  apply (empty_weekday_selection_selects_all ui_no_weekday weekday_only_table
           0 [CText (u "Domingo")]); reflexivity.
Defined.

(** C10, an instance: the first row of the three-row scenario, loaded with
    the example parser. *)
Lemma loaded_rows_have_a_date_witness :
  exists (i : nat) (t : timestamp),
    positions col_data
      (columns (fst (load_data (E:=bench) (Ok three_row_table)))) 0 = [i]
    /\ nth i [CDate 1704067200000000000%Z; CText (u "Segunda-feira");
              CText (u "Planejamento")] CNull = CDate t.
Proof.
  apply (proj1 (loaded_rows_have_a_date (E:=bench) (Ok three_row_table)
                  three_row_table eq_refl eq_refl)).
  left. reflexivity.
Defined.

(** ** Missing columns, missing values, unreadable files *)

Section EngineTheorems.
Context {E : Externals}.

(** The daily detail sorts by [data] whether or not the column is there. *)
Lemma detalhes_diarios_needs_data df :
  has_column col_data df = false ->
  df_empty df = false ->
  detalhes_diarios df = Raise (KeyError col_data).
Proof.
  intros Hc He. unfold detalhes_diarios, sort_values_data. rewrite He.
  rewrite (has_column_positions col_data _ 0) in Hc.
  destruct (positions col_data (columns df) 0); [reflexivity|discriminate].
Qed.

(** C1, at the failing input.  On a table that is not empty and has no
    [data] column the daily detail raises [KeyError: 'data'], and with it
    the whole page, where the specification expects a placeholder. *)
Theorem daily_detail_raises_without_data (hoje : Z) :
  has_column col_data weekday_only_table = false
  /\ df_empty weekday_only_table = false
  /\ detalhes_diarios weekday_only_table = Raise (KeyError col_data)
  /\ render ui_default hoje weekday_only_table = Raise (KeyError col_data).
Proof. repeat split. Qed.

(** C2, at the failing input.  An empty focus cell is turned into the text
    [nan] before the search, so the keyword [nan] keeps its row; a numeric
    cell is turned into its digits, so the keyword [202] keeps the row
    holding 2024. *)
Theorem keyword_matches_missing_and_numeric_focus :
  filter_foco (ui_keyword (u "nan")) missing_focus_table missing_focus_table
  = Ok missing_focus_table
  /\ filter_foco (ui_keyword (u "202")) numeric_focus_table numeric_focus_table
     = Ok numeric_focus_table.
Proof. split; reflexivity. Qed.

(** C6. When the workbook cannot be read, [load_data] reports the cause
    and returns the empty table; the page then shows the two notices and
    computes nothing, and the engine run on the empty table raises
    nothing either: every output is zero or unavailable. *)
Theorem unreadable_payload_gives_empty_table
    (file : payload) (e : exn) (ui : UI) (hoje : Z) :
  read_excel file = Raise e ->
  load_data file = (empty_frame, [ErroAoCarregar (exn_text e)])
  /\ rows (fst (load_data file)) = []
  /\ app (Some file) ui hoje
     = Ok (SemDados [ErroAoCarregar (exn_text e); AvisoNenhumDadoCarregado])
  /\ render ui hoje empty_frame
     = Ok {| df_filtered := empty_frame;
             total_registros := 0;
             top_dia_da_semana := None;
             n_focos_distintos := None;
             acoes_de_hoje := None;
             detalhes := None;
             grafico_focos := None;
             grafico_dias := None |}.
Proof.
  intros H.
  assert (Hl : load_data file = (empty_frame, [ErroAoCarregar (exn_text e)])).
  { unfold load_data. rewrite H. reflexivity. }
  repeat split.
  - exact Hl.
  - now rewrite Hl.
  - unfold app. rewrite Hl. reflexivity.
Qed.

End EngineTheorems.

(** C6, an instance: a payload the reader rejects. *)
Lemma unreadable_payload_gives_empty_table_witness :
  app (E:=bench) (Some (Raise (OtherError (u "File is not a zip file"))))
      ui_default 0%Z
  = Ok (SemDados [ErroAoCarregar (u "File is not a zip file");
                  AvisoNenhumDadoCarregado]).
Proof.
  apply (unreadable_payload_gives_empty_table (E:=bench)
           (Raise (OtherError (u "File is not a zip file")))
           (OtherError (u "File is not a zip file")) ui_default 0%Z eq_refl).
Defined.

(** ** value_counts and the two charts *)

Lemma insert_desc_in x l z :
  In z (insert_desc x l) <-> z = x \/ In z l.
Proof.
  induction l as [|y t IH]; simpl.
  - intuition.
  - destruct (Nat.leb (snd y) (snd x)); simpl.
    + intuition.
    + rewrite IH. intuition.
Qed.

Lemma sorted_counts_in l z :
  In z (fold_right insert_desc [] l) <-> In z l.
Proof.
  induction l as [|y t IH]; simpl; [tauto|].
  rewrite insert_desc_in, IH. intuition.
Qed.

Lemma insert_desc_sorted x l :
  StronglySorted counts_desc l -> StronglySorted counts_desc (insert_desc x l).
Proof.
  induction 1 as [|y t Ht IH Hy]; simpl.
  - repeat constructor.
  - destruct (Nat.leb (snd y) (snd x)) eqn:Hle.
    + apply Nat.leb_le in Hle. constructor.
      * now constructor.
      * constructor; [exact Hle|].
        rewrite Forall_forall in *. intros z Hz. specialize (Hy z Hz).
        unfold counts_desc in *. lia.
    + apply Nat.leb_gt in Hle. constructor; [exact IH|].
      rewrite Forall_forall in *. intros z Hz.
      apply insert_desc_in in Hz as [->|Hz].
      * unfold counts_desc. lia.
      * now apply Hy.
Qed.

Lemma value_counts_sorted s : StronglySorted counts_desc (value_counts s).
Proof.
  unfold value_counts.
  induction (map (fun v => (v, count_cell v (filter notna s)))
                 (unique (filter notna s))) as [|x l IH]; simpl.
  - constructor.
  - now apply insert_desc_sorted.
Qed.

Lemma firstn_in {A} n (l : list A) x : In x (firstn n l) -> In x l.
Proof.
  revert l. induction n as [|n IH]; intros [|a t]; simpl; try tauto.
  intros [->|H]; [now left|right; now apply IH].
Qed.

Lemma firstn_sorted {A} (R : A -> A -> Prop) n l :
  StronglySorted R l -> StronglySorted R (firstn n l).
Proof.
  intros H. revert n. induction H as [|a t Ht IH Ha]; intros [|n]; simpl;
    try constructor.
  - apply IH.
  - rewrite Forall_forall in *. intros z Hz. apply Ha.
    now apply firstn_in in Hz.
Qed.

(** C8. The focus chart, whenever it is drawn, has at most ten bars and
    its counts never increase along the list; it is drawn for every table
    that has rows and one focus column. *)
Theorem focus_histogram_bounded (df : DataFrame) :
  (forall h : list (cell * nat),
      focus_counts df = Ok (Some h) ->
      (List.length h <= 10)%nat /\ StronglySorted counts_desc h)
  /\ (forall i : nat,
        positions col_foco_principal_do_dia (columns df) 0 = [i] ->
        df_empty df = false ->
        exists h, focus_counts df = Ok (Some h)).
Proof.
  split.
  - intros h. unfold focus_counts.
    destruct (has_column col_foco_principal_do_dia df && negb (df_empty df));
      [|discriminate].
    intros H. apply bind_ok in H as [[i s] [_ H]]. injection H as <-.
    split.
    + exact (firstn_le_length 10 (value_counts s)).
    + exact (firstn_sorted counts_desc 10 _ (value_counts_sorted s)).
  - intros i Hp He. unfold focus_counts.
    rewrite (has_column_positions _ _ 0), Hp, He. cbn [nonempty negb andb].
    rewrite (series_of_unique _ _ _ Hp). cbn [bind]. eauto.
Qed.

(** C8, an instance: the focus chart of [three_days_table]. *)
Lemma focus_histogram_bounded_witness :
  (List.length [(CText (u "Planejamento"), 2%nat); (CText (u "Descanso"), 1%nat)]
   <= 10)%nat
  /\ StronglySorted counts_desc
       [(CText (u "Planejamento"), 2%nat); (CText (u "Descanso"), 1%nat)].
Proof.
  apply (proj1 (focus_histogram_bounded three_days_table)). reflexivity.
Defined.

Lemma unique_in s x : In x (unique s) <-> In x s.
Proof.
  induction s as [|c t IH]; simpl; [tauto|].
  rewrite filter_In, IH. split.
  - intros [->|[H _]]; auto.
  - intros [->|H]; [now left|].
    destruct (cell_eq_dec c x) as [->|Hn]; [now left|].
    right. split; [exact H|].
    apply negb_true_iff. now apply cell_eqb_neq.
Qed.

Lemma count_cell_cons v c s :
  count_cell v (c :: s)
  = ((if cell_eqb v c then 1 else 0) + count_cell v s)%nat.
Proof. unfold count_cell. simpl. now destruct (cell_eqb v c). Qed.

Lemma count_cell_absent v s : ~ In v s -> count_cell v s = 0%nat.
Proof.
  induction s as [|c t IH]; intros H; [reflexivity|].
  rewrite count_cell_cons, IH by (simpl in H; tauto).
  destruct (cell_eqb v c) eqn:Hc; [|reflexivity].
  apply cell_eqb_eq in Hc. subst. simpl in H. tauto.
Qed.

Lemma count_cell_present v s :
  notna v = true -> count_cell v (filter notna s) = count_cell v s.
Proof.
  intros Hv. induction s as [|c t IH]; [reflexivity|].
  simpl. destruct (notna c) eqn:Hc.
  - now rewrite !count_cell_cons, IH.
  - rewrite count_cell_cons, IH.
    destruct (cell_eqb v c) eqn:Heq; [|reflexivity].
    apply cell_eqb_eq in Heq. congruence.
Qed.

(** Looking a value up in the result of [value_counts] gives the number
    of cells that hold it; [None] stands for a count of zero. *)
Lemma value_counts_lookup s v :
  notna v = true ->
  match find (fun p => cell_eqb (fst p) v) (value_counts s) with
  | Some p => snd p
  | None => 0%nat
  end = count_cell v s.
Proof.
  intros Hv. unfold value_counts.
  set (present := filter notna s).
  set (tally := map (fun x => (x, count_cell x present)) (unique present)).
  destruct (find _ _) as [p|] eqn:Hf.
  - apply find_some in Hf as [Hin Heq].
    apply (proj1 (sorted_counts_in _ _)) in Hin. subst tally.
    apply in_map_iff in Hin as [x [<- _]]. simpl in *.
    apply cell_eqb_eq in Heq. subst x. now apply count_cell_present.
  - rewrite <- (count_cell_present v s Hv). fold present.
    symmetry. apply count_cell_absent. intros Hin.
    apply unique_in in Hin.
    pose proof (find_none _ _ Hf (v, count_cell v present)) as Hn.
    simpl in Hn. rewrite cell_eqb_refl in Hn.
    assert (false = true); [|discriminate].
    symmetry. apply Hn. apply (proj2 (sorted_counts_in _ _)). subst tally.
    apply in_map_iff. now exists v.
Qed.

Lemma reindex_weekdays s :
  reindex_fillna0 (value_counts s) day_order = weekday_tally s.
Proof.
  unfold reindex_fillna0, weekday_tally. apply map_ext. intros d.
  f_equal. now apply value_counts_lookup.
Qed.

Lemma list_sum_map_add {A} (f g : A -> nat) l :
  list_sum (map (fun x => f x + g x)%nat l)
  = (list_sum (map f l) + list_sum (map g l))%nat.
Proof. induction l as [|a t IH]; simpl; [reflexivity|]. rewrite IH. lia. Qed.

(** Among values that are all different, at most one is the cell [c]. *)
Lemma indicator_sum vs c :
  NoDup vs ->
  list_sum (map (fun v => if cell_eqb v c then 1 else 0)%nat vs)
  = (if existsb (cell_eqb c) vs then 1 else 0)%nat.
Proof.
  induction 1 as [|v t Hv _ IH]; simpl; [reflexivity|].
  rewrite IH.
  destruct (cell_eqb v c) eqn:H1.
  - apply cell_eqb_eq in H1. subst v. rewrite cell_eqb_refl. simpl.
    destruct (existsb (cell_eqb c) t) eqn:H2; [|reflexivity].
    apply existsb_exists in H2 as [x [Hx Hc]].
    apply cell_eqb_eq in Hc. subst x. contradiction.
  - assert (cell_eqb c v = false) as ->.
    { apply cell_eqb_neq. apply cell_eqb_neq in H1. congruence. }
    reflexivity.
Qed.

(** The counts of different values add up to the number of cells that
    hold one of them. *)
Lemma count_sum vs s :
  NoDup vs ->
  list_sum (map (fun v => count_cell v s) vs)
  = List.length (filter (fun c => existsb (cell_eqb c) vs) s).
Proof.
  intros Hvs. induction s as [|c t IH].
  - simpl. induction vs as [|v vs' IHv]; [reflexivity|].
    simpl. apply IHv. now inversion Hvs.
  - rewrite (map_ext _ (fun v => ((if cell_eqb v c then 1 else 0)
                                   + count_cell v t)%nat))
      by (intros v; apply count_cell_cons).
    rewrite list_sum_map_add, IH, (indicator_sum _ _ Hvs). simpl.
    now destruct (existsb (cell_eqb c) vs).
Qed.

Lemma day_order_nodup : NoDup (map CText day_order).
Proof.
  unfold day_order. simpl.
  repeat (constructor; [simpl; intuition discriminate|]).
  constructor.
Qed.

Lemma weekday_tally_sum s :
  list_sum (map snd (weekday_tally s))
  = List.length (filter (fun c => existsb (cell_eqb c) (map CText day_order)) s).
Proof.
  unfold weekday_tally. rewrite map_map. cbn [snd].
  rewrite <- (count_sum _ _ day_order_nodup), map_map. reflexivity.
Qed.

Lemma filter_all {A} (f : A -> bool) l :
  Forall (fun a => f a = true) l -> filter f l = l.
Proof.
  induction 1 as [|a t Ha _ IH]; simpl; [reflexivity|]. now rewrite Ha, IH.
Qed.

Lemma column_at_length i rs : List.length (column_at i rs) = List.length rs.
Proof. apply length_map. Qed.

Section ChartTheorems.
Context {E : Externals}.

(** C7, as amended.  For a filtered table that has rows and the column
    [dia_da_semana], the weekday chart has the seven canonical days in
    their fixed order, each with the number of rows on that day (zero when
    the day is absent); the counts add up to at most the number of rows,
    and to exactly that number when every cell is one of the seven days. *)
Theorem weekday_histogram_complete (ui : UI) (df f1 f2 : DataFrame) :
  filter_dia_da_semana ui df = Ok f1 ->
  filter_foco ui df f1 = Ok f2 ->
  has_column col_dia_da_semana f2 = true ->
  df_empty f2 = false ->
  exists i : nat,
    positions col_dia_da_semana (columns f2) 0 = [i]
    /\ let s := column_at i (rows f2) in
       day_counts f2 = Ok (Some (weekday_tally s))
       /\ map fst (weekday_tally s) = day_order
       /\ List.length (weekday_tally s) = 7%nat
       /\ (forall d, In d day_order -> ~ In (CText d) s ->
                     In (d, 0%nat) (weekday_tally s))
       /\ (list_sum (map snd (weekday_tally s)) <= List.length (rows f2))%nat
       /\ (Forall is_canonical_day s ->
           list_sum (map snd (weekday_tally s)) = List.length (rows f2)).
Proof.
  intros Hf1 Hf2 Hc He.
  destruct (filter_dia_da_semana_inv _ _ _ Hf1) as [Hc1 _].
  destruct (filter_foco_inv _ _ _ _ Hf2) as [Hc2 _].
  assert (Hcdf : has_column col_dia_da_semana df = true).
  { unfold has_column in *. now rewrite <- Hc1, <- Hc2. }
  destruct (filter_dia_da_semana_series _ _ _ Hf1 Hcdf) as [i Hp].
  rewrite <- Hc1, <- Hc2 in Hp.
  exists i. split; [exact Hp|]. cbv zeta.
  repeat split.
  - unfold day_counts. rewrite Hc, He. cbn [negb andb].
    rewrite (series_of_unique _ _ _ Hp). cbn [bind snd].
    now rewrite reindex_weekdays.
  - intros d Hd Hnot. unfold weekday_tally. apply in_map_iff.
    exists d. split; [|exact Hd]. now rewrite count_cell_absent.
  - rewrite weekday_tally_sum, <- (column_at_length i (rows f2)).
    apply filter_length_le.
  - intros Hall. rewrite weekday_tally_sum, filter_all.
    + apply column_at_length.
    + apply Forall_forall. intros c Hin. rewrite Forall_forall in Hall.
      destruct (Hall c Hin) as [d [Hd ->]].
      apply existsb_exists. exists (CText d). split.
      * now apply in_map.
      * apply cell_eqb_refl.
Qed.

End ChartTheorems.

(** C7, at an input: the keyword [xyz] leaves [three_days_table] without
    rows; the column [dia_da_semana] is still there and no weekday chart
    is drawn. *)
Lemma empty_filtered_table_has_no_weekday_chart :
  filter_dia_da_semana (ui_keyword (u "xyz")) three_days_table = Ok three_days_table
  /\ filter_foco (E:=bench) (ui_keyword (u "xyz")) three_days_table three_days_table
     = Ok (mkDF (columns three_days_table) [])
  /\ has_column col_dia_da_semana (mkDF (columns three_days_table) []) = true
  /\ day_counts (mkDF (columns three_days_table) []) = Ok None.
Proof. repeat split. Qed.

(** C7, an instance: [three_days_table] with the sidebar as it opens. *)
Lemma weekday_histogram_complete_witness :
  exists i : nat,
    positions col_dia_da_semana (columns three_days_table) 0 = [i]
    /\ let s := column_at i (rows three_days_table) in
       day_counts three_days_table = Ok (Some (weekday_tally s))
       /\ map fst (weekday_tally s) = day_order
       /\ List.length (weekday_tally s) = 7%nat
       /\ (forall d, In d day_order -> ~ In (CText d) s ->
                     In (d, 0%nat) (weekday_tally s))
       /\ (list_sum (map snd (weekday_tally s))
           <= List.length (rows three_days_table))%nat
       /\ (Forall is_canonical_day s ->
           list_sum (map snd (weekday_tally s))
           = List.length (rows three_days_table)).
Proof.
  apply (weekday_histogram_complete (E:=bench) ui_default
           three_days_table three_days_table three_days_table);
    reflexivity.
Defined.

(** * Further properties of the code *)

(** ** Column keys (lines 20-24) *)

Lemma rstrip_last s t c :
  rstrip_underscores s = t ++ [c] -> is_underscore c = false.
Proof.
  revert t. induction s as [|a s' IH]; intros t; simpl.
  - destruct t; discriminate.
  - destruct (rstrip_underscores s') as [|d r] eqn:Hr.
    + destruct (is_underscore a) eqn:Ha.
      * destruct t; discriminate.
      * destruct t as [|x [|y t']]; simpl; try discriminate.
        intros H. injection H as <-. exact Ha.
    + destruct t as [|x t']; simpl.
      * discriminate.
      * intros H. injection H as _ H. now apply (IH t').
Qed.

Lemma lstrip_empty s :
  lstrip_underscores s = [] <-> forallb is_underscore s = true.
Proof.
  induction s as [|c t IH]; simpl; [tauto|].
  destruct (is_underscore c); simpl; [exact IH|].
  split; discriminate.
Qed.

Lemma rstrip_empty s :
  rstrip_underscores s = [] <-> forallb is_underscore s = true.
Proof.
  induction s as [|c t IH]; simpl; [tauto|].
  destruct (rstrip_underscores t) as [|d r].
  - destruct (is_underscore c); simpl.
    + split; [intros _; now apply IH|reflexivity].
    + split; discriminate.
  - split; [discriminate|].
    intros H. apply andb_true_iff in H as [_ H]. apply IH in H. discriminate.
Qed.

Lemma strip_empty s :
  strip_underscores s = [] <-> forallb is_underscore s = true.
Proof.
  unfold strip_underscores. rewrite rstrip_empty. split.
  - intros H. apply lstrip_empty.
    pose proof (lstrip_clean s) as Hc.
    destruct (lstrip_underscores s) as [|c t]; [reflexivity|].
    simpl in H. rewrite Hc in H. discriminate.
  - intros H. apply lstrip_empty in H. now rewrite H.
Qed.

Lemma collapse_all_underscores s :
  forallb is_underscore (collapse_underscores s) = forallb is_underscore s.
Proof.
  induction s as [|c t IH]; [reflexivity|].
  destruct t as [|d t']; [reflexivity|].
  change (collapse_underscores (c :: d :: t'))
    with (if is_underscore c && is_underscore d
          then collapse_underscores (d :: t')
          else c :: collapse_underscores (d :: t')).
  destruct (is_underscore c && is_underscore d) eqn:Hcd.
  - apply andb_true_iff in Hcd as [Hc Hd].
    rewrite IH. simpl. now rewrite Hc, Hd.
  - change (is_underscore c && forallb is_underscore (collapse_underscores (d :: t'))
            = is_underscore c && forallb is_underscore (d :: t')).
    now rewrite IH.
Qed.

Section KeyProperties.
Context {E : Externals}.

(** X1. A canonical key is made of [a-z0-9_] only, has no two underscores
    in a row, and neither starts nor ends with an underscore. *)
Theorem canonical_key_shape (s : pystr) :
  forallb is_key_char (normalize_label s) = true
  /\ no_double (normalize_label s) = true
  /\ (forall c t, normalize_label s = c :: t -> is_underscore c = false)
  /\ (forall t c, normalize_label s = t ++ [c] -> is_underscore c = false).
Proof.
  repeat split.
  - apply normalize_label_key_chars.
  - apply normalize_label_no_double.
  - intros c t H.
    pose proof (strip_lstrip_fixed
                  (collapse_underscores (replace_non_az09 (str_lower s)))) as Hl.
    fold (normalize_label s) in Hl. rewrite H in Hl.
    simpl in Hl. destruct (is_underscore c) eqn:Hc; [|reflexivity].
    pose proof (lstrip_clean t) as Hclean. rewrite Hl in Hclean. congruence.
  - intros t c H. unfold normalize_label, strip_underscores in H.
    now apply rstrip_last in H.
Qed.

Lemma ascii_lower_twice c : ascii_lower (ascii_lower c) = ascii_lower c.
Proof. unfold ascii_lower. char_cases. Qed.

Lemma ascii_lower_ascii c : is_ascii c = true -> is_ascii (ascii_lower c) = true.
Proof. unfold ascii_lower. char_cases. Qed.

(** X2. Two ASCII labels that differ only in the case of their letters
    get the same key: the key of a label is the key of its lower-case
    form. *)
Theorem key_ignores_ascii_case (s : pystr) :
  forallb is_ascii s = true ->
  normalize_label (map ascii_lower s) = normalize_label s.
Proof.
  intros H. unfold normalize_label, str_lower. rewrite H.
  assert (Hl : forallb is_ascii (map ascii_lower s) = true).
  { rewrite forallb_forall in *. intros c Hc.
    apply in_map_iff in Hc as [x [<- Hx]]. now apply ascii_lower_ascii, H. }
  rewrite Hl, map_map.
  rewrite (map_ext _ ascii_lower) by apply ascii_lower_twice. reflexivity.
Qed.

Lemma replace_lower_underscore c :
  is_ascii c = true ->
  is_underscore (if is_az09 (ascii_lower c) then ascii_lower c else underscore)
  = negb (is_alnum c).
Proof. unfold ascii_lower, is_alnum. char_cases. Qed.

(** X3. An ASCII label gets the empty key exactly when it has no letter
    and no digit. *)
Theorem empty_key_iff_no_alnum (s : pystr) :
  forallb is_ascii s = true ->
  normalize_label s = [] <-> forallb (fun c => negb (is_alnum c)) s = true.
Proof.
  intros H. unfold normalize_label, str_lower. rewrite H.
  rewrite strip_empty, collapse_all_underscores.
  assert (Heq : forallb is_underscore (replace_non_az09 (map ascii_lower s))
                = forallb (fun c => negb (is_alnum c)) s).
  { induction s as [|c t IH]; [reflexivity|].
    simpl in *. apply andb_true_iff in H as [Hc Ht].
    now rewrite (replace_lower_underscore c Hc), (IH Ht). }
  rewrite <- Heq. tauto.
Qed.

End KeyProperties.

(** X2, an instance. *)
Lemma key_ignores_ascii_case_witness :
  normalize_label (E:=bench) (map ascii_lower (u "Dia da SEMANA"))
  = normalize_label (E:=bench) (u "Dia da SEMANA").
Proof. apply (key_ignores_ascii_case (E:=bench)). reflexivity. Defined.

(** X3, an instance: a label of punctuation only. *)
Lemma empty_key_iff_no_alnum_witness :
  normalize_label (E:=bench) (u "(?) - /") = [].
Proof.
  apply (proj2 (empty_key_iff_no_alnum (E:=bench) (u "(?) - /") eq_refl)).
  reflexivity.
Defined.

(** ** Loading (lines 12-40) *)

(** X4. Writing a column and reading it back gives what was written, and
    no other column changes, when the new column has one value per row and
    every row has the cell. *)
Theorem assign_column_reads_back (i : nat) (s : list cell) (rs : list row) :
  List.length s = List.length rs ->
  Forall (fun r => (i < List.length r)%nat) rs ->
  column_at i (assign_column i s rs) = s
  /\ (forall j, j <> i -> column_at j (assign_column i s rs) = column_at j rs)
  /\ List.length (assign_column i s rs) = List.length rs.
Proof.
  intros Hlen Hrs. revert s Hlen.
  induction Hrs as [|r t Hr _ IH]; intros [|v s] Hlen; simpl in Hlen;
    try discriminate.
  - repeat split.
  - injection Hlen as Hlen. destruct (IH s Hlen) as [H1 [H2 H3]].
    simpl. repeat split.
    + now rewrite nth_set_nth_in, H1.
    + intros j Hj. rewrite nth_set_nth_other by congruence. now rewrite H2.
    + now rewrite H3.
Qed.

(** X4, an instance. *)
Lemma assign_column_reads_back_witness :
  column_at 1 (assign_column 1 [CNull; CNum 7]
                 [[CNum 1; CNum 2]; [CNum 3; CNum 4]]) = [CNull; CNum 7].
Proof.
  apply (assign_column_reads_back 1 [CNull; CNum 7]
           [[CNum 1; CNum 2]; [CNum 3; CNum 4]]).
  - reflexivity.
  - repeat constructor.
Defined.

Lemma filter_none {A} (f : A -> bool) l :
  Forall (fun a => f a = false) l -> filter f l = [].
Proof.
  induction 1 as [|a t Ha _ IH]; simpl; [reflexivity|]. now rewrite Ha.
Qed.

Section LoadProperties.
Context {E : Externals}.

(** X5. A workbook with no column keyed [data] is returned with its keys
    normalised and every row as it was read, together with the warning
    about the missing column. *)
Theorem load_without_data_keeps_rows (file : payload) (raw : DataFrame) :
  read_excel file = Ok raw ->
  ~ In col_data (map normalize_label (columns raw)) ->
  load_data file
  = (mkDF (map normalize_label (columns raw)) (rows raw), [AvisoColunaDataAusente]).
Proof.
  intros Hread Hno. rewrite (load_data_read _ _ Hread).
  pose proof (normalize_frame_cases raw) as H. cbv zeta in H.
  destruct (positions col_data (map normalize_label (columns raw)) 0)
    as [|i ps] eqn:Hp.
  - now rewrite H.
  - exfalso. apply Hno.
    assert (Hin : In i (positions col_data (map normalize_label (columns raw)) 0))
      by (rewrite Hp; now left).
    apply positions_nth in Hin. now apply nth_error_In in Hin.
Qed.

(** X6. When the one [data] column holds no cell that converts to a date,
    every row is dropped and the page shows only the notice that no data
    was loaded: no metric, list or chart is computed. *)
Theorem load_with_no_valid_date_shows_no_data
    (file : payload) (raw : DataFrame) (i : nat) (ui : UI) (hoje : Z) :
  read_excel file = Ok raw ->
  positions col_data (map normalize_label (columns raw)) 0 = [i] ->
  Forall (fun r => parses (nth i r CNull) = false) (rows raw) ->
  rows (fst (load_data file)) = []
  /\ app (Some file) ui hoje = Ok (SemDados [AvisoNenhumDadoCarregado]).
Proof.
  intros Hread Hp Hall.
  pose proof (normalize_frame_cases raw) as H. cbv zeta in H. rewrite Hp in H.
  pose proof (filter_none _ _ Hall) as Hnone. cbv beta in Hnone.
  assert (Hl : load_data file
               = (mkDF (map normalize_label (columns raw)) [], [])).
  { rewrite (load_data_read _ _ Hread), H. simpl.
    now rewrite dropna_coerce, Hnone. }
  split.
  - now rewrite Hl.
  - unfold app. rewrite Hl. unfold df_empty. simpl.
    now destruct (map normalize_label (columns raw)).
Qed.

End LoadProperties.

(** X5, an instance: a workbook with a weekday column only. *)
Lemma load_without_data_keeps_rows_witness :
  load_data (E:=bench) (Ok (mkDF [u "Dia da Semana"] [[CText (u "Domingo")]]))
  = (mkDF [col_dia_da_semana] [[CText (u "Domingo")]], [AvisoColunaDataAusente]).
Proof.
  apply (load_without_data_keeps_rows (E:=bench)
           (Ok (mkDF [u "Dia da Semana"] [[CText (u "Domingo")]]))
           (mkDF [u "Dia da Semana"] [[CText (u "Domingo")]]) eq_refl).
  simpl. intros [H|[]]. discriminate H.
Defined.

(** X6, an instance: a workbook whose only date is no date. *)
Lemma load_with_no_valid_date_shows_no_data_witness :
  app (E:=bench) (Some (Ok (mkDF [u "Data"] [[CText (u "not-a-date")]])))
      ui_default 0%Z
  = Ok (SemDados [AvisoNenhumDadoCarregado]).
Proof.
  apply (load_with_no_valid_date_shows_no_data (E:=bench)
           (Ok (mkDF [u "Data"] [[CText (u "not-a-date")]]))
           (mkDF [u "Data"] [[CText (u "not-a-date")]]) 0 ui_default 0%Z eq_refl).
  - reflexivity.
  - repeat constructor.
Defined.

(** ** Sidebar filters (lines 65-87) *)

Lemma boolean_mask_map (f : cell -> bool) i (rs : list row) :
  boolean_mask (map f (column_at i rs)) rs
  = filter (fun r => f (nth i r CNull)) rs.
Proof.
  induction rs as [|r t IH]; simpl; [reflexivity|]. now rewrite IH.
Qed.

Lemma boolean_mask_length (m : list bool) (rs : list row) :
  (List.length (boolean_mask m rs) <= List.length rs)%nat.
Proof.
  revert rs. induction m as [|b m IH]; intros [|r rs]; simpl; try lia.
  specialize (IH rs). destruct b; simpl; lia.
Qed.

Lemma has_column_of_position name df i :
  positions name (columns df) 0 = [i] -> has_column name df = true.
Proof. intros H. now rewrite (has_column_positions _ _ 0), H. Qed.

(** X7. With at least one weekday selected, the weekday filter keeps
    exactly the rows whose [dia_da_semana] cell is one of the selected
    values, in their order, and leaves the columns alone. *)
Theorem weekday_filter_keeps_selected_rows
    (ui : UI) (df : DataFrame) (i : nat) (s : list cell) :
  series_of df col_dia_da_semana = Ok (i, s) ->
  multiselect_dia_da_semana ui (unique s) <> [] ->
  filter_dia_da_semana ui df
  = Ok (mkDF (columns df)
             (filter (fun r => existsb (cell_eqb (nth i r CNull))
                                 (multiselect_dia_da_semana ui (unique s)))
                     (rows df))).
Proof.
  intros Hs Hsel. destruct (series_of_inv _ _ _ _ Hs) as [Hp ->].
  unfold filter_dia_da_semana.
  rewrite (has_column_of_position _ _ _ Hp), Hs. cbn [bind snd].
  destruct (multiselect_dia_da_semana ui (unique (column_at i (rows df))))
    as [|d sel] eqn:Hd; [congruence|].
  cbn [nonempty]. unfold isin. now rewrite boolean_mask_map.
Qed.

(** X8. With the selection the multiselect opens with, every distinct
    value of the column, the weekday filter returns the table as it is. *)
Theorem default_weekday_selection_keeps_all
    (ui : UI) (df : DataFrame) (i : nat) (s : list cell) :
  series_of df col_dia_da_semana = Ok (i, s) ->
  multiselect_dia_da_semana ui (unique s) = unique s ->
  filter_dia_da_semana ui df = Ok df.
Proof.
  intros Hs Hsel. destruct (series_of_inv _ _ _ _ Hs) as [Hp ->].
  unfold filter_dia_da_semana.
  rewrite (has_column_of_position _ _ _ Hp), Hs. cbn [bind snd].
  rewrite Hsel. destruct (nonempty _); [|reflexivity].
  unfold isin. rewrite boolean_mask_map, filter_all.
  - now destruct df.
  - apply Forall_forall. intros r Hr. apply existsb_exists.
    exists (nth i r CNull). split; [|apply cell_eqb_refl].
    apply unique_in. unfold column_at. apply in_map_iff. now exists r.
Qed.

Lemma is_prefix_spec p s :
  is_prefix p s = true <-> exists b, s = p ++ b.
Proof.
  revert s. induction p as [|a p IH]; intros s; simpl.
  - split; [intros _; now exists s|reflexivity].
  - destruct s as [|c s].
    + split; [discriminate|intros [b Hb]; discriminate].
    + rewrite andb_true_iff, N.eqb_eq, IH. split.
      * intros [-> [b ->]]. now exists b.
      * intros [b Hb]. injection Hb as -> ->. split; [reflexivity|now exists b].
Qed.

(** X9. The substring test of the keyword search is exact: it answers
    yes exactly when the text is some prefix, then the keyword, then some
    suffix. *)
Theorem is_infix_spec (p s : pystr) :
  is_infix p s = true <-> exists a b, s = a ++ p ++ b.
Proof.
  induction s as [|c s IH].
  - simpl. rewrite orb_false_r, is_prefix_spec. split.
    + intros [b Hb]. exists [], b. exact Hb.
    + intros [a [b H]]. destruct a; [now exists b|discriminate].
  - change (is_infix p (c :: s)) with (is_prefix p (c :: s) || is_infix p s).
    rewrite orb_true_iff, is_prefix_spec, IH. split.
    + intros [[b Hb]|[a [b Hb]]].
      * exists [], b. exact Hb.
      * exists (c :: a), b. simpl. now rewrite Hb.
    + intros [[|x a] [b Hb]].
      * left. now exists b.
      * right. simpl in Hb. injection Hb as _ ->. now exists a, b.
Qed.

Section FilterProperties.
Context {E : Externals}.

Lemma str_contains_plain k (ss : list pystr) :
  forallb is_plain_char k = true ->
  Forall (fun t => forallb is_ascii t = true) ss ->
  str_contains k ss
  = Ok (map (fun t => is_infix (map ascii_lower k) (map ascii_lower t)) ss).
Proof.
  intros Hk. induction 1 as [|t ss Ht _ IH]; simpl; [reflexivity|].
  unfold contains_ignorecase. rewrite Hk, Ht, IH. reflexivity.
Qed.

Lemma filter_foco_plain ui df f1 i s :
  has_column col_foco_principal_do_dia df = true ->
  series_of f1 col_foco_principal_do_dia = Ok (i, s) ->
  text_input_foco ui <> [] ->
  forallb is_plain_char (text_input_foco ui) = true ->
  Forall (fun c => forallb is_ascii (astype_str c) = true) s ->
  filter_foco ui df f1
  = Ok (mkDF (columns f1)
             (filter (fun r => is_infix (map ascii_lower (text_input_foco ui))
                                 (map ascii_lower (astype_str (nth i r CNull))))
                     (rows f1))).
Proof.
  intros Hc Hs Hne Hk Hascii. destruct (series_of_inv _ _ _ _ Hs) as [Hp ->].
  unfold filter_foco. rewrite Hc.
  destruct (text_input_foco ui) as [|k0 k] eqn:Hkey; [congruence|].
  cbn [nonempty]. rewrite Hs. cbn [bind snd].
  rewrite (str_contains_plain _ _ Hk).
  - cbn [bind]. rewrite map_map.
    now rewrite (boolean_mask_map
                   (fun c => is_infix (map ascii_lower (k0 :: k))
                               (map ascii_lower (astype_str c)))).
  - apply Forall_forall. intros t Ht. apply in_map_iff in Ht as [c [<- Hc']].
    rewrite Forall_forall in Hascii. now apply Hascii.
Qed.


(** X11. Under the same conditions two keywords that differ only in the
    case of their letters select the same rows. *)
Theorem keyword_filter_ignores_case
    (ui1 ui2 : UI) (df f1 : DataFrame) (i : nat) (s : list cell) :
  has_column col_foco_principal_do_dia df = true ->
  series_of f1 col_foco_principal_do_dia = Ok (i, s) ->
  text_input_foco ui1 <> [] ->
  forallb is_plain_char (text_input_foco ui1) = true ->
  forallb is_plain_char (text_input_foco ui2) = true ->
  map ascii_lower (text_input_foco ui1) = map ascii_lower (text_input_foco ui2) ->
  Forall (fun c => forallb is_ascii (astype_str c) = true) s ->
  filter_foco ui1 df f1 = filter_foco ui2 df f1.
Proof.
  intros Hc Hs Hne Hk1 Hk2 Heq Hascii.
  assert (Hne2 : text_input_foco ui2 <> []).
  { intros H0. rewrite H0 in Heq. destruct (text_input_foco ui1); [congruence|].
    discriminate. }
  rewrite (filter_foco_plain ui1 df f1 i s), (filter_foco_plain ui2 df f1 i s);
    try assumption.
  now rewrite Heq.
Qed.

(** X12. Whatever the sidebar holds, the table the page works on has the
    columns of the loaded table and only rows of the loaded table, and the
    record count shown is its number of rows, never more than were
    loaded. *)
Theorem filtered_table_is_part_of_loaded_table
    (ui : UI) (hoje : Z) (df : DataFrame) (p : painel) :
  render ui hoje df = Ok p ->
  columns (df_filtered p) = columns df
  /\ incl (rows (df_filtered p)) (rows df)
  /\ total_registros p = List.length (rows (df_filtered p))
  /\ (total_registros p <= List.length (rows df))%nat.
Proof.
  unfold render. intros H.
  apply bind_ok in H as [f1 [Hf1 H]].
  apply bind_ok in H as [f2 [Hf2 H]].
  apply bind_ok in H as [top [_ H]].
  apply bind_ok in H as [focos [_ H]].
  apply bind_ok in H as [today [_ H]].
  apply bind_ok in H as [det [_ H]].
  apply bind_ok in H as [gf [_ H]].
  apply bind_ok in H as [gd [_ H]].
  injection H as <-. cbn [df_filtered total_registros].
  destruct (filter_dia_da_semana_inv _ _ _ Hf1) as [Hc1 Hr1].
  destruct (filter_foco_inv _ _ _ _ Hf2) as [Hc2 Hr2].
  repeat split.
  - congruence.
  - intros r Hr. now apply Hr1, Hr2.
  - assert (L1 : (List.length (rows f1) <= List.length (rows df))%nat).
    { revert Hf1. unfold filter_dia_da_semana.
      destruct (has_column col_dia_da_semana df).
      - intros Hb. apply bind_ok in Hb as [col [_ Hb]].
        destruct (nonempty _); injection Hb as <-; simpl;
          [apply boolean_mask_length|lia].
      - intros Hb. injection Hb as <-. lia. }
    assert (L2 : (List.length (rows f2) <= List.length (rows f1))%nat).
    { revert Hf2. unfold filter_foco.
      destruct (has_column col_foco_principal_do_dia df).
      - destruct (nonempty _).
        + intros Hb. apply bind_ok in Hb as [col [_ Hb]].
          apply bind_ok in Hb as [m [_ Hb]]. injection Hb as <-. simpl.
          apply boolean_mask_length.
        + intros Hb. injection Hb as <-. lia.
      - intros Hb. injection Hb as <-. lia. }
    lia.
Qed.

End FilterProperties.

(** X7, an instance: only Monday selected on [three_days_table]. *)
Lemma weekday_filter_keeps_selected_rows_witness :
  filter_dia_da_semana ui_monday three_days_table
  = Ok (mkDF (columns three_days_table)
             [ [CText (u "Segunda-feira"); CText (u "Planejamento")];
               [CText (u "Segunda-feira"); CText (u "Planejamento")] ]).
Proof.
  apply (weekday_filter_keeps_selected_rows ui_monday three_days_table 0
           (column_at 0 (rows three_days_table)) eq_refl).
  discriminate.
Defined.

(** X8, an instance: the sidebar as it opens on [three_days_table]. *)
Lemma default_weekday_selection_keeps_all_witness :
  filter_dia_da_semana ui_default three_days_table = Ok three_days_table.
Proof.
  apply (default_weekday_selection_keeps_all ui_default three_days_table 0
           (column_at 0 (rows three_days_table)) eq_refl eq_refl).
Defined.


(** X11, an instance: [PLANEJA] and [planeja] on [three_days_table]. *)
Lemma keyword_filter_ignores_case_witness :
  filter_foco (E:=bench) (ui_keyword (u "PLANEJA")) three_days_table three_days_table
  = filter_foco (E:=bench) (ui_keyword (u "planeja")) three_days_table three_days_table.
Proof.
  apply (keyword_filter_ignores_case (E:=bench) (ui_keyword (u "PLANEJA"))
           (ui_keyword (u "planeja")) three_days_table three_days_table 1
           (column_at 1 (rows three_days_table)) eq_refl eq_refl).
  - discriminate.
  - reflexivity.
  - reflexivity.
  - reflexivity.
  - repeat constructor.
Defined.

(** X12, an instance: the three-row scenario, loaded and shown with only
    Monday selected. *)
Lemma filtered_table_is_part_of_loaded_table_witness :
  exists p : painel,
    render (E:=bench) ui_monday 0%Z (normalize (E:=bench) three_row_table) = Ok p
    /\ (total_registros p
        <= List.length (rows (normalize (E:=bench) three_row_table)))%nat.
Proof.
  eexists. split.
  - vm_compute. reflexivity.
  - eapply (filtered_table_is_part_of_loaded_table (E:=bench) ui_monday 0%Z).
    vm_compute. reflexivity.
Defined.

(** ** Summary metrics and charts (lines 93-105, 177-209) *)

Lemma unique_nodup s : NoDup (unique s).
Proof.
  induction s as [|c t IH]; simpl; constructor.
  - rewrite filter_In. intros [_ H]. now rewrite cell_eqb_refl in H.
  - now apply NoDup_filter.
Qed.

Lemma value_counts_in s v n :
  In (v, n) (value_counts s)
  <-> notna v = true /\ In v s /\ n = count_cell v s.
Proof.
  unfold value_counts. rewrite sorted_counts_in, in_map_iff. split.
  - intros [x [Hx Hin]]. injection Hx as -> <-.
    apply unique_in, filter_In in Hin as [Hin Hna].
    repeat split; try assumption. now apply count_cell_present.
  - intros [Hna [Hin ->]]. exists v. split.
    + now rewrite count_cell_present.
    + apply unique_in, filter_In. now split.
Qed.

Lemma count_cell_positive v s : In v s -> (1 <= count_cell v s)%nat.
Proof.
  induction s as [|c t IH]; simpl; [tauto|].
  rewrite count_cell_cons. intros [->|H].
  - rewrite cell_eqb_refl. lia.
  - specialize (IH H). lia.
Qed.

Lemma insert_desc_perm x l : Permutation (insert_desc x l) (x :: l).
Proof.
  induction l as [|y t IH]; simpl; [reflexivity|].
  destruct (Nat.leb (snd y) (snd x)); [reflexivity|].
  rewrite IH. apply perm_swap.
Qed.

Lemma sorted_counts_perm l : Permutation (fold_right insert_desc [] l) l.
Proof.
  induction l as [|x t IH]; simpl; [reflexivity|].
  rewrite insert_desc_perm. now constructor.
Qed.

Lemma list_sum_perm l l' : Permutation l l' -> list_sum l = list_sum l'.
Proof. induction 1; simpl; lia. Qed.

Lemma value_counts_keys_nodup s : NoDup (map fst (value_counts s)).
Proof.
  unfold value_counts.
  eapply Permutation_NoDup.
  - symmetry. apply Permutation_map, sorted_counts_perm.
  - rewrite map_map. simpl. rewrite map_id. apply unique_nodup.
Qed.

(** The counts of [value_counts] add up to the number of cells that are
    not missing. *)
Lemma value_counts_total s :
  list_sum (map snd (value_counts s)) = List.length (filter notna s).
Proof.
  unfold value_counts.
  rewrite (list_sum_perm _ _ (Permutation_map snd (sorted_counts_perm _))).
  rewrite map_map. cbn [snd].
  rewrite (count_sum _ _ (unique_nodup _)). f_equal.
  apply filter_all. apply Forall_forall. intros c Hc.
  apply existsb_exists. exists c. split; [|apply cell_eqb_refl].
  now apply unique_in.
Qed.

(** X13. The weekday shown as the one with most records is a value of the
    column, not a missing one, and no other value has more rows; the text
    N/A is shown only when every cell of the column is missing. *)
Theorem top_weekday_is_most_frequent
    (df : DataFrame) (i : nat) (s : list cell) (out : top_dia) :
  series_of df col_dia_da_semana = Ok (i, s) ->
  dia_com_mais_registros df = Ok (Some out) ->
  match out with
  | TopDia v =>
      notna v = true /\ In v s
      /\ forall c, notna c = true -> (count_cell c s <= count_cell v s)%nat
  | TopNA => Forall (fun c => c = CNull) s
  end.
Proof.
  intros Hs. destruct (series_of_inv _ _ _ _ Hs) as [Hp Hcol].
  unfold dia_com_mais_registros.
  rewrite (has_column_of_position _ _ _ Hp), Hs. cbn [bind snd].
  pose proof (value_counts_sorted s) as Hsorted.
  pose proof (value_counts_in s) as Hin.
  destruct (value_counts s) as [|[v n] t] eqn:Hvc; intros H; injection H as <-.
  - apply Forall_forall. intros c Hc.
    destruct c as [|x|x|x]; [reflexivity| | |];
      exfalso; eapply (proj2 (Hin _ _)); repeat split; try eassumption; reflexivity.
  - destruct (proj1 (Hin v n) (or_introl eq_refl)) as [Hna [Hv ->]].
    repeat split; try assumption.
    intros c Hc. destruct (in_dec cell_eq_dec c s) as [Hcs|Hcs].
    + assert (Hc' : In (c, count_cell c s) ((v, count_cell v s) :: t))
        by (apply Hin; auto).
      destruct Hc' as [Heq|Hc'].
      * injection Heq as -> _. lia.
      * inversion Hsorted as [|? ? _ Hall]; subst.
        rewrite Forall_forall in Hall. apply (Hall _ Hc').
    + rewrite (count_cell_absent _ _ Hcs). lia.
Qed.

(** X14. The number of distinct foci is the number of different values of
    the column that are not missing, and is at most the number of rows. *)
Theorem distinct_focus_count_counts_values
    (df : DataFrame) (i : nat) (s : list cell) (n : nat) :
  series_of df col_foco_principal_do_dia = Ok (i, s) ->
  focos_distintos df = Ok (Some n) ->
  (exists l : list cell,
      NoDup l
      /\ (forall x, In x l <-> In x s /\ notna x = true)
      /\ n = List.length l)
  /\ (n <= List.length (rows df))%nat.
Proof.
  intros Hs. destruct (series_of_inv _ _ _ _ Hs) as [Hp Hcol].
  unfold focos_distintos.
  rewrite (has_column_of_position _ _ _ Hp), Hs. cbn [bind snd].
  intros H. injection H as <-. split.
  - exists (unique (filter notna s)). repeat split.
    + apply unique_nodup.
    + now apply unique_in, filter_In in H.
    + now apply unique_in, filter_In in H.
    + intros [H1 H2]. apply unique_in, filter_In. now split.
  - unfold nunique.
    assert (Hle : (List.length (unique (filter notna s))
                   <= List.length (filter notna s))%nat).
    { apply NoDup_incl_length; [apply unique_nodup|].
      intros x Hx. now apply (proj1 (unique_in _ _)) in Hx. }
    pose proof (filter_length_le notna s) as Hf.
    assert (Hlen : List.length s = List.length (rows df))
      by (rewrite Hcol; apply column_at_length).
    lia.
Qed.

(** X15. Each bar of the focus chart is a focus that occurs in the table,
    with the number of rows that hold it (at least one); no focus has two
    bars; and when the chart is not cut at ten bars its counts add up to
    the number of rows whose focus is not missing. *)
Theorem focus_chart_counts_rows
    (df : DataFrame) (i : nat) (s : list cell) (h : list (cell * nat)) :
  series_of df col_foco_principal_do_dia = Ok (i, s) ->
  focus_counts df = Ok (Some h) ->
  (forall v n, In (v, n) h ->
               notna v = true /\ In v s /\ n = count_cell v s /\ (1 <= n)%nat)
  /\ NoDup (map fst h)
  /\ ((nunique s <= 10)%nat ->
      list_sum (map snd h) = List.length (filter notna s)).
Proof.
  intros Hs. unfold focus_counts.
  destruct (has_column col_foco_principal_do_dia df && negb (df_empty df));
    [|discriminate].
  rewrite Hs. cbn [bind snd]. intros H.
  assert (Hh : h = firstn 10 (value_counts s)) by congruence.
  clear H. subst h. repeat split.
  - apply firstn_in, value_counts_in in H. tauto.
  - apply firstn_in, value_counts_in in H. tauto.
  - apply firstn_in, value_counts_in in H. tauto.
  - apply firstn_in, value_counts_in in H as [_ [Hin ->]].
    now apply count_cell_positive.
  - pose proof (value_counts_keys_nodup s) as Hnd.
    rewrite <- (firstn_skipn 10 (value_counts s)), map_app in Hnd.
    rewrite <- firstn_map in Hnd |- *. now apply NoDup_app_remove_r in Hnd.
  - intros Hn. rewrite firstn_all2; [apply value_counts_total|].
    unfold value_counts. rewrite (Permutation_length (sorted_counts_perm _)).
    now rewrite length_map.
Qed.

(** X13, an instance: Monday is the most frequent day of [three_days_table]. *)
Lemma top_weekday_is_most_frequent_witness :
  notna (CText (u "Segunda-feira")) = true
  /\ In (CText (u "Segunda-feira")) (column_at 0 (rows three_days_table))
  /\ forall c, notna c = true ->
       (count_cell c (column_at 0 (rows three_days_table))
        <= count_cell (CText (u "Segunda-feira"))
             (column_at 0 (rows three_days_table)))%nat.
Proof.
  exact (top_weekday_is_most_frequent three_days_table 0
           (column_at 0 (rows three_days_table))
           (TopDia (CText (u "Segunda-feira"))) eq_refl eq_refl).
Defined.

(** X14, an instance: two distinct foci in [three_days_table]. *)
Lemma distinct_focus_count_counts_values_witness :
  (exists l : list cell,
      NoDup l
      /\ (forall x, In x l <-> In x (column_at 1 (rows three_days_table))
                               /\ notna x = true)
      /\ 2%nat = List.length l)
  /\ (2 <= List.length (rows three_days_table))%nat.
Proof.
  exact (distinct_focus_count_counts_values three_days_table 1
           (column_at 1 (rows three_days_table)) 2 eq_refl eq_refl).
Defined.

(** X15, an instance: the focus chart of [three_days_table]. *)
Lemma focus_chart_counts_rows_witness :
  NoDup (map fst [(CText (u "Planejamento"), 2%nat); (CText (u "Descanso"), 1%nat)]).
Proof.
  apply (focus_chart_counts_rows three_days_table 1
           (column_at 1 (rows three_days_table))
           [(CText (u "Planejamento"), 2%nat); (CText (u "Descanso"), 1%nat)]
           eq_refl eq_refl).
Defined.

(** ** Today's actions and the daily detail (lines 111-169) *)

Lemma div_eq_iff (a b q : Z) :
  (0 < b)%Z -> ((a / b = q)%Z <-> (q * b <= a < (q + 1) * b)%Z).
Proof.
  intros Hb. split.
  - intros <-. pose proof (Z.div_mod a b ltac:(lia)) as Hd.
    pose proof (Z.mod_pos_bound a b Hb) as Hm. nia.
  - intros Hq. symmetry. apply (Z.div_unique a b q (a - b * q)); lia.
Qed.

(** X16. Today's actions are exactly the rows of the filtered table whose
    date falls on the current day, whatever the time of day: the rows
    whose timestamp lies from midnight of [hoje] up to the next midnight. *)
Theorem todays_actions_are_todays_rows
    (hoje : Z) (df : DataFrame) (i : nat) (s : list cell) :
  series_of df col_data = Ok (i, s) ->
  acoes_hoje hoje df
  = Ok (Some (filter (fun r => date_is hoje (nth i r CNull)) (rows df)))
  /\ (forall c, date_is hoje c = true
                <-> exists t, c = CDate t
                              /\ (hoje * ns_per_day <= t < (hoje + 1) * ns_per_day)%Z).
Proof.
  intros Hs. destruct (series_of_inv _ _ _ _ Hs) as [Hp ->]. split.
  - unfold acoes_hoje.
    rewrite (has_column_of_position _ _ _ Hp), Hs. cbn [bind snd].
    now rewrite boolean_mask_map.
  - intros c. unfold date_is, dt_date.
    destruct c as [|x|x|t].
    1-3: split; [discriminate|intros [t [H _]]; discriminate].
    rewrite Z.eqb_eq, (div_eq_iff t ns_per_day hoje) by reflexivity.
    split.
    + intros H. now exists t.
    + intros [t' [Ht H]]. now injection Ht as ->.
Qed.

(** X16, an instance: noon of day 19723 is an action of day 19723. *)
Lemma todays_actions_are_todays_rows_witness :
  acoes_hoje 19723 (mkDF [col_data] [[CDate 1704110400000000000%Z]])
  = Ok (Some [[CDate 1704110400000000000%Z]]).
Proof.
  apply (todays_actions_are_todays_rows 19723
           (mkDF [col_data] [[CDate 1704110400000000000%Z]]) 0
           [CDate 1704110400000000000%Z] eq_refl).
Defined.

Lemma key_le_total a b : key_le a b = false -> key_le b a = true.
Proof.
  destruct a, b; simpl; try discriminate; try reflexivity.
  rewrite Z.leb_gt, Z.leb_le. lia.
Qed.

Lemma key_le_trans a b c :
  key_le a b = true -> key_le b c = true -> key_le a c = true.
Proof.
  destruct a, b, c; simpl; try discriminate; try reflexivity.
  rewrite !Z.leb_le. lia.
Qed.

Lemma insert_row_perm i r l : Permutation (insert_row i r l) (r :: l).
Proof.
  induction l as [|y t IH]; simpl; [reflexivity|].
  destruct (key_le (sort_key i r) (sort_key i y)); [reflexivity|].
  rewrite IH. apply perm_swap.
Qed.

Lemma sorted_rows_perm i rs : Permutation (fold_right (insert_row i) [] rs) rs.
Proof.
  induction rs as [|r t IH]; simpl; [reflexivity|].
  rewrite insert_row_perm. now constructor.
Qed.

Lemma insert_row_sorted i r l :
  StronglySorted (data_le i) l -> StronglySorted (data_le i) (insert_row i r l).
Proof.
  induction 1 as [|y t Ht IH Hy]; simpl.
  - repeat constructor.
  - destruct (key_le (sort_key i r) (sort_key i y)) eqn:Hle.
    + constructor; [now constructor|].
      constructor; [exact Hle|].
      rewrite Forall_forall in *. intros z Hz.
      apply (key_le_trans _ _ _ Hle). now apply Hy.
    + constructor; [exact IH|].
      rewrite Forall_forall in *. intros z Hz.
      apply insert_row_in in Hz as [->|Hz].
      * now apply key_le_total.
      * now apply Hy.
Qed.

Lemma sorted_rows_sorted i rs :
  StronglySorted (data_le i) (fold_right (insert_row i) [] rs).
Proof.
  induction rs as [|r t IH]; simpl; [constructor|].
  now apply insert_row_sorted.
Qed.

(** X17. Sorting by [data] rearranges the rows and nothing else: the
    result has the same columns and the same rows, each as often as
    before, in ascending order of date with the rows that have no date at
    the end. *)
Theorem sort_values_data_sorts (df d : DataFrame) (i : nat) :
  sort_values_data df = Ok (i, d) ->
  positions col_data (columns df) 0 = [i]
  /\ columns d = columns df
  /\ Permutation (rows d) (rows df)
  /\ StronglySorted (data_le i) (rows d).
Proof.
  unfold sort_values_data.
  destruct (positions col_data (columns df) 0) as [|k [|k' ps]];
    try discriminate.
  intros H. injection H as <- <-. simpl. repeat split.
  - apply sorted_rows_perm.
  - apply sorted_rows_sorted.
Qed.

(** X17, an instance: two dates out of order and a row without date. *)
Lemma sort_values_data_sorts_witness :
  StronglySorted (data_le 0) [[CDate 1%Z]; [CDate 5%Z]; [CNull]].
Proof.
  apply (sort_values_data_sorts
           (mkDF [col_data] [[CNull]; [CDate 5%Z]; [CDate 1%Z]])
           (mkDF [col_data] [[CDate 1%Z]; [CDate 5%Z]; [CNull]]) 0 eq_refl).
Defined.

Section DetailProperties.
Context {E : Externals}.

Lemma expanders_rows i rs es :
  expanders i rs = Ok es ->
  map snd es = rs
  /\ Forall (fun e => display_date_of (nth i (snd e) CNull) = Ok (fst e)) es.
Proof.
  revert es. induction rs as [|r t IH]; intros es; simpl.
  - intros H. injection H as <-. split; [reflexivity|constructor].
  - intros H. apply bind_ok in H as [d [Hd H]].
    apply bind_ok in H as [rest [Hrest H]]. injection H as <-.
    destruct (IH _ Hrest) as [H1 H2]. simpl. split.
    + now rewrite H1.
    + now constructor.
Qed.

(** X18. The daily detail has one expander for each row of the filtered
    table, in ascending order of date, and the title of each expander
    starts with the date of its own row. *)
Theorem daily_detail_lists_every_row
    (df : DataFrame) (es : list (display_date * row)) :
  detalhes_diarios df = Ok (Some es) ->
  exists i : nat,
    positions col_data (columns df) 0 = [i]
    /\ Permutation (map snd es) (rows df)
    /\ StronglySorted (data_le i) (map snd es)
    /\ List.length es = List.length (rows df)
    /\ Forall (fun e => display_date_of (nth i (snd e) CNull) = Ok (fst e)) es.
Proof.
  unfold detalhes_diarios. destruct (negb (df_empty df)); [|discriminate].
  intros H. apply bind_ok in H as [[i d] [Hsort H]].
  apply bind_ok in H as [es' [Hexp H]]. injection H as ->.
  unfold sort_values_data in Hsort.
  destruct (positions col_data (columns df) 0) as [|k [|k' ps]];
    try discriminate.
  injection Hsort as <- <-. simpl in Hexp.
  destruct (expanders_rows _ _ _ Hexp) as [Hrows Hdates].
  exists k. split; [reflexivity|]. rewrite Hrows. repeat split.
  - apply sorted_rows_perm.
  - apply sorted_rows_sorted.
  - rewrite <- (length_map snd), Hrows.
    apply Permutation_length, sorted_rows_perm.
  - exact Hdates.
Qed.

(** X19. Without a [data] column the daily detail depends on the rows
    alone: with no row left it shows the notice that nothing was found,
    with any row left it raises [KeyError: 'data']. *)
Theorem daily_detail_without_data_column (df : DataFrame) :
  has_column col_data df = false ->
  (df_empty df = true -> detalhes_diarios df = Ok None)
  /\ (df_empty df = false -> detalhes_diarios df = Raise (KeyError col_data)).
Proof.
  intros Hc. split.
  - intros He. unfold detalhes_diarios. now rewrite He.
  - intros He. now apply detalhes_diarios_needs_data.
Qed.

Lemma positions_absent name cols k :
  ~ In name cols -> positions name cols k = [].
Proof.
  revert k. induction cols as [|c t IH]; intros k H; simpl; [reflexivity|].
  destruct (pystr_eqb c name) eqn:Hc.
  - apply pystr_eqb_eq in Hc. subst. simpl in H. tauto.
  - apply IH. simpl in H. tauto.
Qed.

Lemma positions_nodup name cols k :
  NoDup cols -> (List.length (positions name cols k) <= 1)%nat.
Proof.
  intros H. revert k. induction H as [|c t Hc _ IH]; intros k; simpl; [lia|].
  destruct (pystr_eqb c name) eqn:Heq.
  - apply pystr_eqb_eq in Heq. subst c.
    rewrite (positions_absent _ _ _ Hc). simpl. lia.
  - apply IH.
Qed.

(** With column labels that are all different every column is read as a
    Series. *)
Lemma series_of_nodup df name :
  NoDup (columns df) ->
  has_column name df = true ->
  exists i, series_of df name = Ok (i, column_at i (rows df)).
Proof.
  intros Hnd Hc. rewrite (has_column_positions _ _ 0) in Hc.
  pose proof (positions_nodup name _ 0 Hnd) as Hlen.
  destruct (positions name (columns df) 0) as [|i [|j ps]] eqn:Hp;
    simpl in *; try discriminate; try lia.
  exists i. now apply series_of_unique.
Qed.



End DetailProperties.

(** X18, an instance: two dated rows out of order. *)
Lemma daily_detail_lists_every_row_witness :
  exists i : nat,
    positions col_data [col_data] 0 = [i]
    /\ Permutation [[CDate 1%Z]; [CDate 5%Z]] [[CDate 5%Z]; [CDate 1%Z]]
    /\ StronglySorted (data_le i) [[CDate 1%Z]; [CDate 5%Z]]
    /\ 2%nat = 2%nat
    /\ Forall (fun e => display_date_of (E:=bench) (nth i (snd e) CNull) = Ok (fst e))
         [(DataFormatada (u "1"), [CDate 1%Z]); (DataFormatada (u "5"), [CDate 5%Z])].
Proof.
  exact (daily_detail_lists_every_row (E:=bench)
           (mkDF [col_data] [[CDate 5%Z]; [CDate 1%Z]])
           [(DataFormatada (u "1"), [CDate 1%Z]); (DataFormatada (u "5"), [CDate 5%Z])]
           eq_refl).
Defined.

(** X19, an instance: [weekday_only_table], with and without its row. *)
Lemma daily_detail_without_data_column_witness :
  detalhes_diarios (E:=bench) (mkDF [col_dia_da_semana] []) = Ok None
  /\ detalhes_diarios (E:=bench) weekday_only_table = Raise (KeyError col_data).
Proof.
  split.
  - apply (proj1 (daily_detail_without_data_column (E:=bench)
                    (mkDF [col_dia_da_semana] []) eq_refl)).
    reflexivity.
  - apply (proj2 (daily_detail_without_data_column (E:=bench)
                    weekday_only_table eq_refl)).
    reflexivity.
Defined.


(** ** Optional fields and the empty view *)

(** X21. In a table whose labels are all different an optional field of
    a row is read without raising, and it is shown exactly when its column
    exists and the cell is not missing; when two columns share the label
    the test of line 123 (or 128) raises. *)
Theorem optional_field_shown_when_present
    (cols : list pystr) (r : row) (name : pystr) :
  (NoDup cols ->
   exists f : campo,
     campo_opcional cols r name = Ok f
     /\ forall c, f = Informado c
                  <-> exists i, nth_error cols i = Some name
                                /\ nth i r CNull = c /\ notna c = true)
  /\ (forall i j, i <> j ->
                  nth_error cols i = Some name ->
                  nth_error cols j = Some name ->
                  campo_opcional cols r name
                  = Raise (ValueError (u "The truth value of a Series is ambiguous."))).
Proof.
  split.
  - intros Hnd. unfold campo_opcional, row_getitem.
    pose proof (positions_nodup name cols 0 Hnd) as Hlen.
    pose proof (has_column_positions name (mkDF cols []) 0) as Hhas.
    unfold has_column in Hhas. simpl in Hhas. rewrite Hhas.
    destruct (positions name cols 0) as [|k [|k' ps]] eqn:Hp;
      simpl in Hlen; try lia; cbn [nonempty bind].
    + exists NaoInformado. split; [reflexivity|].
      intros c. split; [discriminate|].
      intros [i [Hi _]]. apply (nth_error_positions _ _ 0) in Hi.
      rewrite Hp in Hi. destruct Hi.
    + assert (Hk : nth_error cols k = Some name).
      { replace k with (k - 0)%nat by lia. apply positions_nth.
        rewrite Hp. now left. }
      destruct (notna (nth k r CNull)) eqn:Hna.
      * exists (Informado (nth k r CNull)). split; [reflexivity|].
        intros c. split.
        -- intros H. injection H as <-. now exists k.
        -- intros [i [Hi [<- _]]]. apply (nth_error_positions _ _ 0) in Hi.
           rewrite Hp in Hi. simpl in Hi. destruct Hi as [<-|[]]. reflexivity.
      * exists NaoInformado. split; [reflexivity|].
        intros c. split; [discriminate|].
        intros [i [Hi [Hc Hn]]]. apply (nth_error_positions _ _ 0) in Hi.
        rewrite Hp in Hi. simpl in Hi. destruct Hi as [<-|[]]. congruence.
  - intros i j Hij Hi Hj. unfold campo_opcional, row_getitem.
    pose proof (has_column_positions name (mkDF cols []) 0) as Hhas.
    unfold has_column in Hhas. simpl in Hhas. rewrite Hhas.
    apply (nth_error_positions _ _ 0) in Hi, Hj.
    destruct (two_members _ _ _ Hi Hj) as [a [b [t ->]]]; [simpl; lia|].
    reflexivity.
Qed.

(** X21, an instance: a row with notes and no activities column. *)
Lemma optional_field_shown_when_present_witness :
  exists f : campo,
    campo_opcional [col_data; col_notas_objetivos]
      [CDate 1%Z; CText (u "revisar metas")] col_notas_objetivos = Ok f
    /\ forall c, f = Informado c
                 <-> exists i, nth_error [col_data; col_notas_objetivos] i
                               = Some col_notas_objetivos
                               /\ nth i [CDate 1%Z; CText (u "revisar metas")] CNull = c
                               /\ notna c = true.
Proof.
  apply (proj1 (optional_field_shown_when_present
                  [col_data; col_notas_objetivos]
                  [CDate 1%Z; CText (u "revisar metas")] col_notas_objetivos)).
  repeat (constructor; [simpl; intuition discriminate|]). constructor.
Defined.

Section EmptyView.
Context {E : Externals}.

(** X22. When the filters leave no row and the labels are all different,
    nothing raises, with or without a [data] column: the top weekday is
    N/A, there are no distinct foci and no action for today, and the
    daily detail and both charts give way to their notices. *)
Theorem empty_view_shows_placeholders (hoje : Z) (df : DataFrame) :
  rows df = [] ->
  NoDup (columns df) ->
  dia_com_mais_registros df
  = Ok (if has_column col_dia_da_semana df then Some TopNA else None)
  /\ focos_distintos df
     = Ok (if has_column col_foco_principal_do_dia df then Some 0%nat else None)
  /\ acoes_hoje hoje df = Ok (if has_column col_data df then Some [] else None)
  /\ detalhes_diarios df = Ok None
  /\ focus_counts df = Ok None
  /\ day_counts df = Ok None.
Proof.
  intros Hrows Hnd.
  assert (He : df_empty df = true).
  { unfold df_empty. rewrite Hrows. now destruct (columns df). }
  assert (Hser : forall name, has_column name df = true ->
                              exists i, series_of df name = Ok (i, [])).
  { intros name Hc. destruct (series_of_nodup _ _ Hnd Hc) as [i Hi].
    exists i. rewrite Hi, Hrows. reflexivity. }
  repeat split.
  - unfold dia_com_mais_registros.
    destruct (has_column col_dia_da_semana df) eqn:Hc; [|reflexivity].
    destruct (Hser _ Hc) as [i ->]. reflexivity.
  - unfold focos_distintos.
    destruct (has_column col_foco_principal_do_dia df) eqn:Hc; [|reflexivity].
    destruct (Hser _ Hc) as [i ->]. reflexivity.
  - unfold acoes_hoje.
    destruct (has_column col_data df) eqn:Hc; [|reflexivity].
    destruct (Hser _ Hc) as [i ->]. cbn [bind snd map boolean_mask].
    reflexivity.
  - unfold detalhes_diarios. now rewrite He.
  - unfold focus_counts. rewrite He. now rewrite andb_false_r.
  - unfold day_counts. rewrite He. now rewrite andb_false_r.
Qed.

End EmptyView.

(** X22, an instance: [three_days_table] with no row left. *)
Lemma empty_view_shows_placeholders_witness :
  dia_com_mais_registros (mkDF (columns three_days_table) []) = Ok (Some TopNA)
  /\ focos_distintos (mkDF (columns three_days_table) []) = Ok (Some 0%nat)
  /\ acoes_hoje 0 (mkDF (columns three_days_table) []) = Ok None
  /\ detalhes_diarios (E:=bench) (mkDF (columns three_days_table) []) = Ok None
  /\ focus_counts (mkDF (columns three_days_table) []) = Ok None
  /\ day_counts (mkDF (columns three_days_table) []) = Ok None.
Proof.
  apply (empty_view_shows_placeholders (E:=bench) 0
           (mkDF (columns three_days_table) []) eq_refl).
  repeat (constructor; [simpl; intuition discriminate|]). constructor.
Defined.

(** X1, an instance: the key of a label with punctuation at both ends
    starts with [n] and ends with [s]. *)
Lemma canonical_key_shape_witness :
  normalize_label (E:=bench) (u "(Notas / Objetivos)") = u "notas_objetivos"
  /\ is_underscore 110 = false
  /\ is_underscore 115 = false.
Proof.
  destruct (canonical_key_shape (E:=bench) (u "(Notas / Objetivos)"))
    as [_ [_ [Hfirst Hlast]]].
  split; [reflexivity|]. split.
  - apply (Hfirst 110 (u "otas_objetivos")). reflexivity.
  - apply (Hlast (u "notas_objetivo") 115). reflexivity.
Defined.

(** X9, an instance: [nan] inside [banana]. *)
Lemma is_infix_spec_witness : is_infix (u "nan") (u "banana") = true.
Proof.
  apply (proj2 (is_infix_spec (u "nan") (u "banana"))).
  exists (u "ba"), (u "a"). reflexivity.
Defined.
